(** * GitHub client layer of github-for-jira: a shallow embedding

    Sources embedded here:
    - [src/github/client/github-client.ts]      (class [GitHubClient])
    - [src/github/client/github-app-client.ts]  (class [GitHubAppClient])

    The two classes are thin layers over the axios HTTP library.  The parts
    of axios they rely on (instance creation, interceptor registration, the
    promise chain built by [Axios.prototype.request]) are modelled in
    [Module Axios]; the few JavaScript built-ins they call ([String.endsWith],
    truthiness of a string, the [host] getter of a WHATWG URL, number to
    string conversion in a template literal) are in [Module JS]. *)

From Stdlib Require Import ZArith String Ascii List Bool Lia DecimalString.
From stdpp Require Import base option strings gmap.
Import ListNotations.

Local Open Scope string_scope.
Local Open Scope list_scope.

(* ===================================================================== *)
(** ** JavaScript built-ins used by the clients *)
(* ===================================================================== *)

Module JS.

(** Truthiness of a value of type [string | undefined]: [undefined] and
    the empty string are falsy, every other string is truthy. *)
Definition truthy (v : option string) : bool :=
  match v with
  | None => false
  | Some s => negb (String.eqb s "")
  end.

(** [s.endsWith(suffix)]. *)
Definition endsWith (s suffix : string) : bool :=
  let n := String.length s in
  let k := String.length suffix in
  (k <=? n)%nat && String.eqb (substring (n - k) k s) suffix.

(** [`${n}`] for a non-negative integer [n] (an array length, or an array
    length minus one when the length is at least one): its decimal
    numeral. *)
Definition numberToString (n : nat) : string :=
  NilZero.string_of_uint (Nat.to_uint n).

(** [v == s] where [s] is a string and [v] has type [string | undefined]:
    two strings are loosely equal exactly when they are the same sequence
    of code units, and [undefined] is loosely equal to no string. *)
Definition looseEqString (v : option string) (s : string) : bool :=
  match v with
  | None => false
  | Some x => String.eqb x s
  end.

(** The components of a parsed URL that the [host] getter reads.  [port]
    is the empty string when the URL has no port or the default port of
    its scheme. *)
Record URL := mkURL {
  protocol : string;
  hostname : string;
  port : string
}.

(** [url.host]: the hostname, followed by [":"] and the port when the
    port is not empty. *)
Definition host (u : URL) : string :=
  if String.eqb (port u) "" then hostname u
  else hostname u +:+ ":" +:+ port u.

(** *** A parser for the URLs the examples use

    [new URL(s)] for inputs of the shape
    [scheme://hostname[:port][/path]], with the default port of [http]
    and [https] dropped as the URL standard prescribes.  Any other input
    is rejected ([new URL] throws a [TypeError]).  The development is
    parametric in the parser (class [Runtime] below); this one
    instantiates it for concrete scenarios. *)

Fixpoint splitAt (sep : string) (s : string) : option (string * string) :=
  if String.prefix sep s
  then Some ("", substring (String.length sep) (String.length s - String.length sep) s)
  else match s with
       | EmptyString => None
       | String c s' =>
           match splitAt sep s' with
           | Some (a, b) => Some (String c a, b)
           | None => None
           end
       end.

Definition isDigit (c : ascii) : bool :=
  let n := nat_of_ascii c in ((48 <=? n) && (n <=? 57))%nat.

Fixpoint allDigits (s : string) : bool :=
  match s with
  | EmptyString => true
  | String c s' => isDigit c && allDigits s'
  end.

Definition defaultPort (scheme : string) : string :=
  if String.eqb scheme "https" then "443"
  else if String.eqb scheme "http" then "80"
  else "".

Definition parseURL (s : string) : option URL :=
  match splitAt "://" s with
  | None => None
  | Some (scheme, rest) =>
      let authority :=
        match splitAt "/" rest with
        | Some (a, _) => a
        | None => rest
        end in
      let '(h, p) :=
        match splitAt ":" authority with
        | Some (h, p) => (h, p)
        | None => (authority, "")
        end in
      if String.eqb scheme "" || String.eqb h "" || negb (allDigits p)
      then None
      else Some {| protocol := scheme +:+ ":";
                   hostname := h;
                   port := if String.eqb p (defaultPort scheme) then "" else p |}
  end.

End JS.

(* ===================================================================== *)
(** ** Promises *)
(* ===================================================================== *)

(** The two ways a promise settles.  A synchronous [throw] inside an
    [async] function or inside a [then] handler is a rejection as well. *)
Inductive Settled (A E : Type) : Type :=
| Resolved (value : A)
| Rejected (reason : E).
Arguments Resolved {A E} value.
Arguments Rejected {A E} reason.

(** An asynchronous computation over a world [W] (everything outside the
    client: network, token holder, clock, log sinks): run against the
    current world it settles and leaves a new world. *)
Definition Async (W E A : Type) : Type := W -> Settled A E * W.

Definition resolve {W E A} (a : A) : Async W E A := fun w => (Resolved a, w).
Definition reject {W E A} (e : E) : Async W E A := fun w => (Rejected e, w).

(** [await]: continue with the value, or propagate the rejection. *)
Definition await {W E A C} (p : Async W E A) (k : A -> Async W E C) : Async W E C :=
  fun w =>
    match p w with
    | (Resolved a, w') => k a w'
    | (Rejected e, w') => (Rejected e, w')
    end.

(** A side effect that cannot fail (a log call). *)
Definition perform {W E} (f : W -> W) : Async W E unit := fun w => (Resolved tt, f w).

Declare Scope async_scope.
Delimit Scope async_scope with async.
Notation "x <- p ;; k" := (await p (fun x => k))
  (at level 100, p at next level, right associativity) : async_scope.
Notation "p ;;; k" := (await p (fun _ => k))
  (at level 100, right associativity) : async_scope.

(* ===================================================================== *)
(** ** The axios HTTP library, as far as the clients use it *)
(* ===================================================================== *)

Module Axios.

(** [new HttpProxyAgent(url)] and [new HttpsProxyAgent(url)]: agent
    objects, identified by their class and the proxy they point at. *)
Inductive Agent : Type :=
| HttpProxyAgent (proxyUrl : string)
| HttpsProxyAgent (proxyUrl : string).

(** The [proxy] option: [false] or a proxy description. *)
Inductive ProxyOption : Type :=
| ProxyFalse
| ProxyServer (proxyHost : string) (proxyPort : Z).

Inductive Method : Type := GET | POST.

(** A URL parameter or GraphQL variable: a string or a number. *)
Inductive Param : Type :=
| PString (s : string)
| PNumber (n : Z).

(** The body posted by [graphql]: [{ query, variables }]. *)
Record GraphQLRequest := {
  query : string;
  variables : option (list (string * option Param))
}.

(** [AxiosRequestConfig] (every key optional, so the same record is
    [Partial<AxiosRequestConfig>]): the keys the clients and their
    interceptors read or write.  [None] is an absent or [undefined] key;
    [headers] is the (possibly empty) header object; [urlParams] keeps the
    object's own keys in insertion order. *)
Record AxiosRequestConfig := {
  url : option string;
  method : option Method;
  baseURL : option string;
  headers : gmap string string;
  data : option GraphQLRequest;
  urlParams : option (list (string * Param));
  timeout : option Z;
  requestStartTime : option Z;
  clarifyTimeoutError : option bool;   (* transitional.clarifyTimeoutError *)
  httpAgent : option Agent;
  httpsAgent : option Agent;
  proxy : option ProxyOption
}.

(** The empty object literal [{}]. *)
Definition emptyConfig : AxiosRequestConfig :=
  {| url := None; method := None; baseURL := None; headers := ∅;
     data := None; urlParams := None; timeout := None;
     requestStartTime := None; clarifyTimeoutError := None;
     httpAgent := None; httpsAgent := None; proxy := None |}.

(** [{ ...config, headers: h }]. *)
Definition withHeaders (config : AxiosRequestConfig) (h : gmap string string)
  : AxiosRequestConfig :=
  {| url := url config; method := method config; baseURL := baseURL config;
     headers := h;
     data := data config; urlParams := urlParams config;
     timeout := timeout config; requestStartTime := requestStartTime config;
     clarifyTimeoutError := clarifyTimeoutError config;
     httpAgent := httpAgent config; httpsAgent := httpsAgent config;
     proxy := proxy config |}.

(** [a ?? b] on optional keys. *)
Definition orElse {A} (a b : option A) : option A :=
  match a with Some _ => a | None => b end.

(** [mergeConfig(defaults, config)]: a key of the request configuration
    wins over the instance default; header objects are merged, request
    headers first. *)
Definition mergeConfig (defaults config : AxiosRequestConfig) : AxiosRequestConfig :=
  {| url := orElse (url config) (url defaults);
     method := orElse (method config) (method defaults);
     baseURL := orElse (baseURL config) (baseURL defaults);
     headers := headers config ∪ headers defaults;
     data := orElse (data config) (data defaults);
     urlParams := orElse (urlParams config) (urlParams defaults);
     timeout := orElse (timeout config) (timeout defaults);
     requestStartTime := orElse (requestStartTime config) (requestStartTime defaults);
     clarifyTimeoutError := orElse (clarifyTimeoutError config) (clarifyTimeoutError defaults);
     httpAgent := orElse (httpAgent config) (httpAgent defaults);
     httpsAgent := orElse (httpsAgent config) (httpsAgent defaults);
     proxy := orElse (proxy config) (proxy defaults) |}.

(** [AxiosResponse<B>]. *)
Module Response.
Record t (B : Type) := make {
  data : option B;
  status : Z;
  headers : gmap string string;
  config : AxiosRequestConfig
}.
Arguments make {B} data status headers config.
Arguments data {B} r : rename.
Arguments status {B} r : rename.
Arguments headers {B} r : rename.
Arguments config {B} r : rename.
End Response.
Abbreviation AxiosResponse := Response.t.

(** The agent a request of the given scheme goes through under a
    configuration whose [proxy] option is [false]: [httpAgent] for
    [http:], [httpsAgent] for [https:]; without one the connection is
    direct. *)
Definition agentFor (scheme : string) (config : AxiosRequestConfig) : option Agent :=
  if String.eqb scheme "https:" then httpsAgent config
  else if String.eqb scheme "http:" then httpAgent config
  else None.

Section Instance.
Context {W B E : Type}.

(** A handler as passed to [interceptors.*.use]: a function, with the
    identifier it is registered under. *)
Record Handler (A V : Type) := {
  name : string;
  run : A -> Async W E V
}.
Arguments name {A V} h.
Arguments run {A V} h.

(** One entry of an interceptor manager: [use(fulfilled, rejected)],
    either of which may be [undefined]. *)
Record Interceptor (V : Type) := {
  fulfilled : option (Handler V V);
  rejected : option (Handler E V)
}.
Arguments fulfilled {V} i.
Arguments rejected {V} i.

Record AxiosInstance := {
  defaults : AxiosRequestConfig;
  adapter : AxiosRequestConfig -> Async W E (AxiosResponse B);
  requestInterceptors : list (Interceptor AxiosRequestConfig);
  responseInterceptors : list (Interceptor (AxiosResponse B))
}.

(** [axios.create(config)] over a given transport: no interceptors. *)
Definition create
    (transport : AxiosRequestConfig -> Async W E (AxiosResponse B))
    (config : AxiosRequestConfig) : AxiosInstance :=
  {| defaults := config; adapter := transport;
     requestInterceptors := []; responseInterceptors := [] |}.

(** [instance.interceptors.request.use(f, r)]: appended to the
    manager's handler array. *)
Definition useRequest (i : Interceptor AxiosRequestConfig) (inst : AxiosInstance)
  : AxiosInstance :=
  {| defaults := defaults inst; adapter := adapter inst;
     requestInterceptors := requestInterceptors inst ++ [i];
     responseInterceptors := responseInterceptors inst |}.

(** [instance.interceptors.response.use(f, r)]. *)
Definition useResponse (i : Interceptor (AxiosResponse B)) (inst : AxiosInstance)
  : AxiosInstance :=
  {| defaults := defaults inst; adapter := adapter inst;
     requestInterceptors := requestInterceptors inst;
     responseInterceptors := responseInterceptors inst ++ [i] |}.

(** A computation that also reports which handlers it invoked, in
    invocation order. *)
Definition Traced (A : Type) : Type := W -> Settled A E * W * list string.

Definition untraced {A} (t : Traced A) : Async W E A := fun w => fst (t w).
Definition traceOf {A} (t : Traced A) (w : W) : list string := snd (t w).

(** [promise.then(onFulfilled, onRejected)]: the handler matching the
    way [promise] settled is invoked with the settled value; when that
    handler is [undefined] the settlement passes through. *)
Definition thenInterceptor {V} (p : Traced V) (i : Interceptor V) : Traced V :=
  fun w =>
    match p w with
    | (Resolved v, w', tr) =>
        match fulfilled i with
        | Some h => let '(r, w'') := run h v w' in (r, w'', tr ++ [name h])
        | None => (Resolved v, w', tr)
        end
    | (Rejected e, w', tr) =>
        match rejected i with
        | Some h => let '(r, w'') := run h e w' in (r, w'', tr ++ [name h])
        | None => (Rejected e, w', tr)
        end
    end.

(** The chain [Axios.prototype.request] ([lib/core/Axios.js]) builds.
    It walks the request manager with
    [forEach(function unshiftRequestInterceptors(interceptor)
       { chain.unshift(interceptor.fulfilled, interceptor.rejected) })],
    so each request interceptor is put in front of those registered
    before it and the one registered last runs first; it walks the
    response manager with [pushResponseInterceptors], which appends, so
    response interceptors run in registration order.  The chain is then
    threaded through [promise.then(fulfilled, rejected)], pair by pair. *)
Definition requestChain (inst : AxiosInstance) : list (Interceptor AxiosRequestConfig) :=
  fold_left (fun chain i => i :: chain) (requestInterceptors inst) [].

Definition responseChain (inst : AxiosInstance) : list (Interceptor (AxiosResponse B)) :=
  fold_left (fun chain i => chain ++ [i]) (responseInterceptors inst) [].

Definition dispatchRequest (inst : AxiosInstance)
  : Handler AxiosRequestConfig (AxiosResponse B) :=
  {| name := "dispatchRequest"; run := adapter inst |}.

(** The request side of the chain, up to the configuration handed to
    the transport. *)
Definition requestPhase (inst : AxiosInstance) (config : AxiosRequestConfig)
  : Traced AxiosRequestConfig :=
  fold_left thenInterceptor (requestChain inst)
    (fun w => (Resolved (mergeConfig (defaults inst) config), w, [])).

(** The chain up to and including [dispatchRequest], which is
    skipped when the request side rejected. *)
Definition dispatched (inst : AxiosInstance) (config : AxiosRequestConfig)
  : Traced (AxiosResponse B) :=
  fun w =>
    match requestPhase inst config w with
    | (Resolved c, w', tr) =>
        let '(r, w'') := run (dispatchRequest inst) c w' in
        (r, w'', tr ++ [name (dispatchRequest inst)])
    | (Rejected e, w', tr) => (Rejected e, w', tr)
    end.

(** [instance.request(config)]. *)
Definition requestTraced (inst : AxiosInstance) (config : AxiosRequestConfig)
  : Traced (AxiosResponse B) :=
  fold_left thenInterceptor (responseChain inst) (dispatched inst config).

(** The identifiers an interceptor entry was registered with. *)
Definition handlerNames {V} (i : Interceptor V) : option string * option string :=
  (option_map name (fulfilled i), option_map name (rejected i)).

(** The configuration [request] hands to the transport, when the
    request side of the chain resolves; [None] when an interceptor
    rejected and nothing is sent. *)
Definition outgoing (inst : AxiosInstance) (config : AxiosRequestConfig) (w : W)
  : option AxiosRequestConfig :=
  match requestPhase inst config w with
  | (Resolved c, _, _) => Some c
  | (Rejected _, _, _) => None
  end.

Definition request (inst : AxiosInstance) (config : AxiosRequestConfig)
  : Async W E (AxiosResponse B) :=
  untraced (requestTraced inst config).

(** [{ ...config, method, url, data }]. *)
Definition withCall (config : AxiosRequestConfig) (m : Method) (u : string)
    (d : option GraphQLRequest) : AxiosRequestConfig :=
  {| url := Some u; method := Some m; baseURL := baseURL config;
     headers := headers config;
     data := d; urlParams := urlParams config;
     timeout := timeout config; requestStartTime := requestStartTime config;
     clarifyTimeoutError := clarifyTimeoutError config;
     httpAgent := httpAgent config; httpsAgent := httpsAgent config;
     proxy := proxy config |}.

(** [instance.get(url, config)]. *)
Definition get (inst : AxiosInstance) (u : string) (config : AxiosRequestConfig)
  : Async W E (AxiosResponse B) :=
  request inst (withCall config GET u (data config)).

(** [instance.post(url, data, config)]. *)
Definition post (inst : AxiosInstance) (u : string) (d : GraphQLRequest)
    (config : AxiosRequestConfig) : Async W E (AxiosResponse B) :=
  request inst (withCall config POST u (Some d)).

End Instance.

Arguments Handler : clear implicits.
Arguments Interceptor : clear implicits.
Arguments AxiosInstance : clear implicits.
Arguments name {W E A V} h.
Arguments run {W E A V} h.
Arguments fulfilled {W E V} i.
Arguments rejected {W E V} i.

End Axios.

Import Axios.

(* ===================================================================== *)
(** ** Types shared by the GitHub clients *)
(* ===================================================================== *)

(** [github-client.types]: the wire shape of a GraphQL response body,
    [{ data?, errors?: [{ message, type? }] }]. *)
Module GraphQL.
Record GraphQLError := {
  message : string;
  type : option string
}.

Record GraphQlQueryResponse (T : Type) := {
  data : option T;
  errors : option (list GraphQLError)
}.
Arguments data {T} r : rename.
Arguments errors {T} r : rename.
End GraphQL.
Abbreviation GraphQLError := GraphQL.GraphQLError.
Abbreviation GraphQlQueryResponse := GraphQL.GraphQlQueryResponse.

(** What a call can reject with.  [RateLimitingError] and
    [GithubClientGraphQLError] are the two error classes [graphql]
    constructs, with the constructor arguments it passes;
    [AxiosError] is a transport failure, [TypeError] what [new URL]
    throws, [GithubClientError] a transport failure after classification
    by the failure interceptor. *)
Inductive Failure (B : Type) : Type :=
| RateLimitingError (response : AxiosResponse B)
| GithubClientGraphQLError (message : string) (errors : list GraphQLError)
| AxiosError (message : string) (code : option string) (response : option (AxiosResponse B))
| GithubClientError (message : string) (status : option Z)
| TypeError (message : string).
Arguments RateLimitingError {B} response.
Arguments GithubClientGraphQLError {B} message errors.
Arguments AxiosError {B} message code response.
Arguments GithubClientError {B} message status.
Arguments TypeError {B} message.

(** A bunyan logger: the two methods the clients call.  [warn] takes the
    [{ res: response }] field object and the message. *)
Record Logger (W B : Type) := {
  warn : AxiosResponse B -> string -> W -> W;
  info : string -> W -> W
}.
Arguments warn {W B} l.
Arguments info {W B} l.

(** [envVars] of [config/env]: the process-wide settings read here. *)
Record EnvVars := { PROXY : option string }.

(** What the process provides: the [URL] constructor ([None] when it
    throws) and the environment. *)
Class Runtime := {
  newURL : string -> option JS.URL;
  envVars : EnvVars
}.

(** The HTTP adapter behind every axios instance. *)
Class Network (W B : Type) :=
  transport : AxiosRequestConfig -> Async W (Failure B) (AxiosResponse B).

(* ===================================================================== *)
(** ** [GitHubClient] ([github-client.ts]) *)
(* ===================================================================== *)

Module GitHubConfig.
Record t := make {
  hostname : string;
  baseUrl : string;
  apiUrl : string;
  graphqlUrl : string;
  proxyBaseUrl : option string
}.
End GitHubConfig.
Abbreviation GitHubConfig := GitHubConfig.t.

Module GitHubClient.
Section Client.
Context {W T : Type} {runtime : Runtime} {network : Network W (GraphQlQueryResponse T)}.

Local Abbreviation Body := (GraphQlQueryResponse T).
Local Abbreviation Promise := (Async W (Failure Body)).

Record t := {
  logger : Logger W Body;
  restApiUrl : string;
  graphqlUrl : string;
  axios : AxiosInstance W Body (Failure Body)
}.

Definition noProxyConfig : AxiosRequestConfig :=
  {| url := None; method := None; baseURL := None; headers := ∅;
     data := None; urlParams := None; timeout := None;
     requestStartTime := None; clarifyTimeoutError := None;
     httpAgent := None;
     httpsAgent := None;
     proxy := Some ProxyFalse |}.

Definition outboundProxyConfig : AxiosRequestConfig :=
  let outboundProxyHttpsAgent :=
    match PROXY envVars with
    | Some p => if JS.truthy (Some p) then Some (HttpsProxyAgent p) else None
    | None => None
    end in
  {| url := None; method := None; baseURL := None; headers := ∅;
     data := None; urlParams := None; timeout := None;
     requestStartTime := None; clarifyTimeoutError := None;
     httpAgent := None;
     httpsAgent := outboundProxyHttpsAgent;
     proxy := Some ProxyFalse |}.

(** Pure: the result depends on the URL and the environment only; the
    one way to fail is [new URL] throwing. *)
Definition getProxyConfig (baseUrl : string)
  : Settled AxiosRequestConfig (Failure Body) :=
  match newURL baseUrl with
  | None => Rejected (TypeError "Invalid URL")
  | Some u =>
      if JS.endsWith (JS.host u) "atlassian.com"
      then Resolved noProxyConfig
      else Resolved outboundProxyConfig
  end.

Definition buildProxyConfig (logger : Logger W Body) (proxyBaseUrl : string)
  : Promise AxiosRequestConfig :=
  (perform (info logger "Using outbound proxy") ;;;
   let proxyHttpAgent := HttpProxyAgent proxyBaseUrl in
   let proxyHttpsAgent := HttpsProxyAgent proxyBaseUrl in
   resolve
     {| url := None; method := None; baseURL := None; headers := ∅;
        data := None; urlParams := None; timeout := None;
        requestStartTime := None; clarifyTimeoutError := None;
        httpAgent := Some proxyHttpAgent;
        httpsAgent := Some proxyHttpsAgent;
        proxy := Some ProxyFalse |})%async.

(** The proxy part of the constructor: the conditional expression that
    is spread into the argument of [axios.create]. *)
Definition proxyConfigFor (gitHubConfig : GitHubConfig) (logger : Logger W Body)
    (restApiUrl : string) : Promise AxiosRequestConfig :=
  match GitHubConfig.proxyBaseUrl gitHubConfig with
  | Some p =>
      if JS.truthy (Some p) then buildProxyConfig logger p
      else fun w => (getProxyConfig restApiUrl, w)
  | None => fun w => (getProxyConfig restApiUrl, w)
  end.

(** The field initialisers of the constructor and its [axios.create]
    call, given the proxy configuration that is spread into the
    argument.  The object literal has [baseURL] and [transitional] of
    its own and takes every other key from the spread configuration,
    which defines neither of those two. *)
Definition instantiate (gitHubConfig : GitHubConfig) (logger : Logger W Body)
    (proxyConfig : AxiosRequestConfig) : t :=
  let restApiUrl := GitHubConfig.apiUrl gitHubConfig in
  {| logger := logger;
     restApiUrl := restApiUrl;
     graphqlUrl := GitHubConfig.graphqlUrl gitHubConfig;
     axios :=
       Axios.create transport
         {| url := url proxyConfig; method := method proxyConfig;
            baseURL := Some restApiUrl;
            headers := headers proxyConfig;
            data := data proxyConfig;
            urlParams := urlParams proxyConfig;
            timeout := timeout proxyConfig;
            requestStartTime := requestStartTime proxyConfig;
            clarifyTimeoutError := Some true;
            httpAgent := httpAgent proxyConfig;
            httpsAgent := httpsAgent proxyConfig;
            proxy := proxy proxyConfig |} |}.

(** [new GitHubClient(gitHubConfig, logger)]: it may log and it may
    throw, hence a computation over the world. *)
Definition constructor (gitHubConfig : GitHubConfig) (logger : Logger W Body)
  : Promise t :=
  (proxyConfig <- proxyConfigFor gitHubConfig logger (GitHubConfig.apiUrl gitHubConfig) ;;
   resolve (instantiate gitHubConfig logger proxyConfig))%async.

(** The transport configuration of a client carries both proxy agents
    for [p] and has the library's own proxy handling switched off. *)
Definition usesExplicitProxy (self : t) (p : string) : Prop :=
  httpAgent (defaults (axios self)) = Some (HttpProxyAgent p) /\
  httpsAgent (defaults (axios self)) = Some (HttpsProxyAgent p) /\
  proxy (defaults (axios self)) = Some ProxyFalse.

(** No proxy agent of either scheme is attached. *)
Definition usesNoAgent (self : t) : Prop :=
  httpAgent (defaults (axios self)) = None /\
  httpsAgent (defaults (axios self)) = None.

(** [response.data?.errors]. *)
Definition embeddedErrors (response : AxiosResponse Body)
  : option (list GraphQLError) :=
  match Response.data response with
  | Some body => GraphQL.errors body
  | None => None
  end.

(** Some entry of the sequence carries the rate-limit marker. *)
Definition hasRateLimitEntry (graphqlErrors : list GraphQLError) : Prop :=
  exists err, In err graphqlErrors /\ GraphQL.type err = Some "RATE_LIMITED".

(** [graphqlErrors[0].message + (graphqlErrors.length > 1
     ? ` and ${graphqlErrors.length - 1} more errors` : "")]. *)
Definition graphQlErrorMessage (first : GraphQLError) (graphqlErrors : list GraphQLError)
  : string :=
  GraphQL.message first +:+
  (if (1 <? length graphqlErrors)%nat
   then " and " +:+ JS.numberToString (length graphqlErrors - 1) +:+ " more errors"
   else "").

(** [graphql<T>(query, config, variables?)]. *)
Definition graphql (self : t) (query : string) (config : AxiosRequestConfig)
    (variables : option (list (string * option Param)))
  : Promise (AxiosResponse Body) :=
  (response <- Axios.post (axios self) (graphqlUrl self)
                 {| query := query; variables := variables |} config ;;
   let graphqlErrors := embeddedErrors response in
   match graphqlErrors with
   | Some ((first :: _) as graphqlErrors) =>
       perform (warn (logger self) response "GraphQL errors") ;;;
       match find (fun err => JS.looseEqString (GraphQL.type err) "RATE_LIMITED") graphqlErrors with
       | Some _ => reject (RateLimitingError response)
       | None =>
           reject (GithubClientGraphQLError
                     (graphQlErrorMessage first graphqlErrors) graphqlErrors)
       end
   | Some [] | None => resolve response
   end)%async.

End Client.
Arguments t : clear implicits.
End GitHubClient.

(* ===================================================================== *)
(** ** [GitHubAppClient] ([github-app-client.ts]) *)
(* ===================================================================== *)

(** Modelled from the spec: [InstallationId] of [./installation-id], the
    installation identity (base URL, app id, client id, correlation
    uuid).  The client reads [githubBaseUrl] and hands the whole value to
    the token holder. *)
Record InstallationId := {
  githubBaseUrl : string;
  appId : Z;
  clientId : string;
  uuid : string
}.

(** Modelled from the spec: [AppToken], the credential the token holder
    returns, [{ token, expiresAt }]. *)
Record AppToken := {
  token : string;
  expiresAt : Z
}.

(** [AppTokenHolder] of [./app-token-holder]: the one method the client
    calls.  It may consult and update state of its own (part of the
    world) and may throw. *)
Record AppTokenHolder (W B : Type) := {
  getAppToken : InstallationId -> Async W (Failure B) AppToken
}.
Arguments getAppToken {W B} _.

(** The functions imported from [./github-client-interceptors],
    [utils/axios/url-params-middleware] and [config/metric-names], whose
    sources are not part of this development: arbitrary functions of the
    types axios gives its interceptors. *)
Class Interceptors (W B : Type) := {
  setRequestStartTime : AxiosRequestConfig -> Async W (Failure B) AxiosRequestConfig;
  setRequestTimeout : AxiosRequestConfig -> Async W (Failure B) AxiosRequestConfig;
  urlParamsMiddleware : AxiosRequestConfig -> Async W (Failure B) AxiosRequestConfig;
  handleFailedRequest : Logger W B -> Failure B -> Async W (Failure B) (AxiosResponse B);
  instrumentRequest : string -> AxiosResponse B -> Async W (Failure B) (AxiosResponse B);
  instrumentFailedRequest : string -> Failure B -> Async W (Failure B) (AxiosResponse B);
  metricHttpRequest_github : string
}.

Module GitHubAppClient.
Section Client.
Context {W B : Type} {network : Network W B} {interceptors : Interceptors W B}.

Local Abbreviation Promise := (Async W (Failure B)).

Record t := {
  axios : AxiosInstance W B (Failure B);
  appTokenHolder : AppTokenHolder W B;
  githubInstallationId : InstallationId;
  logger : Logger W B
}.

(** [appAuthenticationHeaders()], reading [this.appTokenHolder] and
    [this.githubInstallationId]. *)
Definition appAuthenticationHeaders (appTokenHolder : AppTokenHolder W B)
    (githubInstallationId : InstallationId) : Promise (gmap string string) :=
  (appToken <- getAppToken appTokenHolder githubInstallationId ;;
   resolve
     (<["Accept" := "application/vnd.github.machine-man-preview+json"]>
        (<["Authorization" := "Bearer " +:+ token appToken]> ∅)))%async.

(** The arrow function registered last in the constructor:
    [{ ...config, headers: { ...config.headers,
                             ...this.appAuthenticationHeaders() } }].
    It has no name of its own and is labelled by the method it calls. *)
Definition authenticationInterceptor (appTokenHolder : AppTokenHolder W B)
    (githubInstallationId : InstallationId)
  : Handler W (Failure B) AxiosRequestConfig AxiosRequestConfig :=
  {| name := "appAuthenticationHeaders";
     run := fun config =>
       (authHeaders <- appAuthenticationHeaders appTokenHolder githubInstallationId ;;
        resolve (withHeaders config (authHeaders ∪ headers config)))%async |}.

Definition onFulfilled {V} (n : string) (f : V -> Promise V)
  : Interceptor W (Failure B) V :=
  {| fulfilled := Some {| name := n; run := f |}; rejected := None |}.

(** [new GitHubAppClient(githubInstallationId, logger, appTokenHolder)]:
    the instance and the six [use] calls, in source order. *)
Definition constructor (githubInstallationId : InstallationId)
    (logger : Logger W B) (appTokenHolder : AppTokenHolder W B) : t :=
  let axios0 :=
    Axios.create transport
      {| url := None; method := None;
         baseURL := Some (githubBaseUrl githubInstallationId);
         headers := ∅; data := None; urlParams := None; timeout := None;
         requestStartTime := None;
         clarifyTimeoutError := Some true;
         httpAgent := None; httpsAgent := None; proxy := None |} in
  let axios1 := useRequest (onFulfilled "setRequestStartTime" setRequestStartTime) axios0 in
  let axios2 := useRequest (onFulfilled "setRequestTimeout" setRequestTimeout) axios1 in
  let axios3 := useRequest (onFulfilled "urlParamsMiddleware" urlParamsMiddleware) axios2 in
  let axios4 :=
    useResponse
      {| fulfilled := None;
         rejected := Some {| name := "handleFailedRequest";
                             run := handleFailedRequest logger |} |}
      axios3 in
  let axios5 :=
    useResponse
      {| fulfilled := Some {| name := "instrumentRequest";
                              run := instrumentRequest metricHttpRequest_github |};
         rejected := Some {| name := "instrumentFailedRequest";
                             run := instrumentFailedRequest metricHttpRequest_github |} |}
      axios4 in
  let axios6 :=
    useRequest
      {| fulfilled := Some (authenticationInterceptor appTokenHolder githubInstallationId);
         rejected := None |}
      axios5 in
  {| axios := axios6;
     appTokenHolder := appTokenHolder;
     githubInstallationId := githubInstallationId;
     logger := logger |}.

(** The four endpoints.  Each method is one [this.axios.get(url, config)];
    [Call] names the method with its arguments and [callUrl],
    [callConfig] are the two arguments of that [get]. *)
Inductive Call : Type :=
| GetUserMembershipForOrg (username org : string)
| GetApp
| GetInstallation (installationId : Z)
| GetInstallations.

Definition callUrl (c : Call) : string :=
  match c with
  | GetUserMembershipForOrg _ _ => "/orgs/{org}/memberships/{username}"
  | GetApp => "/app"
  | GetInstallation _ => "/installations/{installationId}"
  | GetInstallations => "/app/installations"
  end.

Definition withUrlParams (ps : list (string * Param)) : AxiosRequestConfig :=
  {| url := None; method := None; baseURL := None; headers := ∅;
     data := None; urlParams := Some ps; timeout := None;
     requestStartTime := None; clarifyTimeoutError := None;
     httpAgent := None; httpsAgent := None; proxy := None |}.

Definition callConfig (c : Call) : AxiosRequestConfig :=
  match c with
  | GetUserMembershipForOrg username org =>
      withUrlParams [("username", PString username); ("org", PString org)]
  | GetApp => emptyConfig
  | GetInstallation installationId =>
      withUrlParams [("installationId", PNumber installationId)]
  | GetInstallations => emptyConfig
  end.

(** The configuration [get] passes to [request] for a call. *)
Definition callRequest (c : Call) : AxiosRequestConfig :=
  withCall (callConfig c) GET (callUrl c) (data (callConfig c)).

Definition getUserMembershipForOrg (self : t) (username org : string)
  : Promise (AxiosResponse B) :=
  Axios.get (axios self) (callUrl (GetUserMembershipForOrg username org))
    (callConfig (GetUserMembershipForOrg username org)).

Definition getApp (self : t) : Promise (AxiosResponse B) :=
  Axios.get (axios self) (callUrl GetApp) (callConfig GetApp).

Definition getInstallation (self : t) (installationId : Z)
  : Promise (AxiosResponse B) :=
  (response <- Axios.get (axios self) (callUrl (GetInstallation installationId))
                 (callConfig (GetInstallation installationId)) ;;
   resolve response)%async.

Definition getInstallations (self : t) : Promise (AxiosResponse B) :=
  Axios.get (axios self) (callUrl GetInstallations) (callConfig GetInstallations).

(** *** Vocabulary for the properties below *)

(** An interceptor that, whenever it resolves, hands on the headers it
    was given. *)
Definition keepsHeaders (f : AxiosRequestConfig -> Promise AxiosRequestConfig)
  : Prop :=
  forall config w config' w',
    f config w = (Resolved config', w') -> headers config' = headers config.

(** A failure handler that rejects again, whatever it is given. *)
Definition rejectsAgain {A} (f : Failure B -> Promise A) : Prop :=
  forall e w, exists e' w', f e w = (Rejected e', w').

(** The two authentication headers, for a given app token. *)
Definition carriesAppToken (config : AxiosRequestConfig) (t : AppToken) : Prop :=
  headers config !! "Authorization" = Some ("Bearer " +:+ token t) /\
  headers config !! "Accept" = Some "application/vnd.github.machine-man-preview+json".

(** A method call, by name. *)
Definition invoke (self : t) (c : Call) : Promise (AxiosResponse B) :=
  match c with
  | GetUserMembershipForOrg username org => getUserMembershipForOrg self username org
  | GetApp => getApp self
  | GetInstallation installationId => getInstallation self installationId
  | GetInstallations => getInstallations self
  end.

End Client.
Arguments t : clear implicits.
End GitHubAppClient.

(* ===================================================================== *)
(** ** A concrete world, for running the clients *)
(* ===================================================================== *)

Module Scenario.

(** Everything outside the clients: a clock, the token holder's current
    tokens (keyed by the identity's uuid), the log and metric sinks, the
    requests the network has received (oldest first) and the replies it
    will give (next first). *)
Record World (B : Type) := {
  clock : Z;
  tokens : gmap string AppToken;
  logs : list (string * string);
  metrics : list string;
  wire : list AxiosRequestConfig;
  replies : list (Settled (AxiosResponse B) (Failure B))
}.
Arguments clock {B} w.
Arguments tokens {B} w.
Arguments logs {B} w.
Arguments metrics {B} w.
Arguments wire {B} w.
Arguments replies {B} w.

Section World.
Context {B : Type}.

Definition addLog (level msg : string) (w : World B) : World B :=
  {| clock := clock w; tokens := tokens w;
     logs := logs w ++ [(level, msg)];
     metrics := metrics w; wire := wire w; replies := replies w |}.

Definition addMetric (m : string) (w : World B) : World B :=
  {| clock := clock w; tokens := tokens w; logs := logs w;
     metrics := metrics w ++ [m];
     wire := wire w; replies := replies w |}.

(** The token holder replaces the token of an identity. *)
Definition rotate (id : InstallationId) (t : AppToken) (w : World B) : World B :=
  {| clock := clock w; tokens := <[uuid id := t]> (tokens w);
     logs := logs w; metrics := metrics w; wire := wire w;
     replies := replies w |}.

Definition bunyan : Logger (World B) B :=
  {| warn := fun _ msg => addLog "warn" msg;
     info := fun msg => addLog "info" msg |}.

(** The network records the request and answers with the next scripted
    reply; with none left the connection fails. *)
#[export] Instance network : Network (World B) B :=
  fun config w =>
    let w' r :=
      {| clock := clock w; tokens := tokens w; logs := logs w;
         metrics := metrics w; wire := wire w ++ [config]; replies := r |} in
    match replies w with
    | reply :: rest => (reply, w' rest)
    | [] => (Rejected (AxiosError "Network Error" (Some "ECONNREFUSED") None), w' [])
    end.

(** The runtime: the URL parser of [JS], and a given proxy setting. *)
Definition runtime (proxySetting : option string) : Runtime :=
  {| newURL := JS.parseURL; envVars := {| PROXY := proxySetting |} |}.

Definition holder : AppTokenHolder (World B) B :=
  {| getAppToken := fun id w =>
       match tokens w !! uuid id with
       | Some t => (Resolved t, w)
       | None => (Rejected (GithubClientError "no app token" (Some 401%Z)), w)
       end |}.

(** [s.replace(new RegExp(key, "g"), value)] for a literal [key]. *)
Fixpoint replaceAll (fuel : nat) (key value s : string) : string :=
  match fuel with
  | O => s
  | S fuel' =>
      match JS.splitAt key s with
      | Some (before, after) => before +:+ value +:+ replaceAll fuel' key value after
      | None => s
      end
  end.

Definition paramToString (p : Param) : string :=
  match p with
  | PString s => s
  | PNumber n => NilZero.string_of_int (Z.to_int n)
  end.

Definition substitute (ps : list (string * Param)) (u : string) : string :=
  fold_left
    (fun acc kv =>
       replaceAll (String.length acc) ("{" +:+ fst kv +:+ "}") (paramToString (snd kv)) acc)
    ps u.

Definition setField (f : AxiosRequestConfig -> AxiosRequestConfig)
  : AxiosRequestConfig -> Async (World B) (Failure B) AxiosRequestConfig :=
  fun config => resolve (f config).

(** Modelled from the spec: the request pipeline steps of section 4.2
    and the response-side handlers, which enrich and re-reject.
    (1) stamps the start time, (2) sets the time limit, (3) substitutes
    the named URL parameters, (5) records an outcome metric, (6)
    classifies a transport failure, logs it and rejects again. *)
#[export] Instance interceptors : Interceptors (World B) B :=
  {| setRequestStartTime := fun config w =>
       (Resolved
          {| url := url config; method := method config; baseURL := baseURL config;
             headers := headers config; data := data config;
             urlParams := urlParams config; timeout := timeout config;
             requestStartTime := Some (clock w);
             clarifyTimeoutError := clarifyTimeoutError config;
             httpAgent := httpAgent config; httpsAgent := httpsAgent config;
             proxy := proxy config |}, w);
     setRequestTimeout :=
       setField (fun config =>
          {| url := url config; method := method config; baseURL := baseURL config;
             headers := headers config; data := data config;
             urlParams := urlParams config; timeout := Some 60000%Z;
             requestStartTime := requestStartTime config;
             clarifyTimeoutError := clarifyTimeoutError config;
             httpAgent := httpAgent config; httpsAgent := httpsAgent config;
             proxy := proxy config |});
     urlParamsMiddleware :=
       setField (fun config =>
          match urlParams config, url config with
          | Some ps, Some u =>
              {| url := Some (substitute ps u); method := method config;
                 baseURL := baseURL config;
                 headers := headers config; data := data config;
                 urlParams := urlParams config; timeout := timeout config;
                 requestStartTime := requestStartTime config;
                 clarifyTimeoutError := clarifyTimeoutError config;
                 httpAgent := httpAgent config; httpsAgent := httpsAgent config;
                 proxy := proxy config |}
          | _, _ => config
          end);
     handleFailedRequest := fun logger e w =>
       match e with
       | AxiosError msg code response =>
           (Rejected (GithubClientError ("Error executing Axios Request: " +:+ msg)
                        (option_map Response.status response)),
            info logger "request failed" w)
       | _ => (Rejected e, w)
       end;
     instrumentRequest := fun metric response w =>
       (Resolved response, addMetric metric w);
     instrumentFailedRequest := fun metric e w =>
       (Rejected e, addMetric metric w);
     metricHttpRequest_github := "app.server.http.request.github" |}.

Definition blank : World B :=
  {| clock := 0; tokens := ∅; logs := []; metrics := []; wire := [];
     replies := [] |}.

Definition withReplies (rs : list (Settled (AxiosResponse B) (Failure B)))
    (w : World B) : World B :=
  {| clock := clock w; tokens := tokens w; logs := logs w;
     metrics := metrics w; wire := wire w; replies := rs |}.

End World.

(** An installation identity and two generations of its app token. *)
Definition identity : InstallationId :=
  {| githubBaseUrl := "https://api.github.com"; appId := 12;
     clientId := "Iv1.client"; uuid := "c97806fc" |}.
Definition token1 : AppToken := {| token := "jwt-one"; expiresAt := 600 |}.
Definition token2 : AppToken := {| token := "jwt-two"; expiresAt := 1200 |}.

(** A 200 reply with the given body. *)
Definition ok {B} (body : option B) : AxiosResponse B :=
  Response.make body 200 ∅ emptyConfig.

Definition appClient : GitHubAppClient.t (World string) string :=
  GitHubAppClient.constructor identity bunyan holder.

Definition appWorld : World string :=
  withReplies [Resolved (ok (Some "{}")); Resolved (ok (Some "{}"))]
    (rotate identity token1 blank).

(** The same world with an unreachable network. *)
Definition offlineWorld : World string := rotate identity token1 blank.

(** The world after [getApp] has settled and the holder has moved on to
    the second token. *)
Definition rotatedWorld : World string :=
  rotate identity token2
    (snd (GitHubAppClient.invoke appClient GitHubAppClient.GetApp appWorld)).

End Scenario.


Module ScenarioGraphQL.
Import Scenario.

Abbreviation Body := (GraphQlQueryResponse string).

Definition cloudConfig : GitHubConfig :=
  GitHubConfig.make "github.com" "https://github.com" "https://api.github.com"
    "https://api.github.com/graphql" None.

(** A GitHub Enterprise Server reached through an explicit proxy. *)
Definition proxiedConfig : GitHubConfig :=
  GitHubConfig.make "ghe.example.com" "https://ghe.example.com"
    "https://ghe.example.com/api/v3" "https://ghe.example.com/api/graphql"
    (Some "http://proxy.internal:8080").

(** The same server, with [proxyBaseUrl] present and empty. *)
Definition emptyProxyConfig : GitHubConfig :=
  GitHubConfig.make "ghe.example.com" "https://ghe.example.com"
    "https://ghe.example.com/api/v3" "https://ghe.example.com/api/graphql"
    (Some "").

Definition gheConfig : GitHubConfig :=
  GitHubConfig.make "ghe.example.com" "https://ghe.example.com"
    "https://ghe.example.com/api/v3" "https://ghe.example.com/api/graphql" None.

(** Hosts of the trusted domain, on the default port and on another. *)
Definition atlassianConfig : GitHubConfig :=
  GitHubConfig.make "github.internal.atlassian.com" "https://github.internal.atlassian.com"
    "https://github.internal.atlassian.com/api/v3"
    "https://github.internal.atlassian.com/api/graphql" None.

Definition portedAtlassianConfig : GitHubConfig :=
  GitHubConfig.make "github.internal.atlassian.com"
    "https://github.internal.atlassian.com:8443"
    "https://github.internal.atlassian.com:8443/api/v3"
    "https://github.internal.atlassian.com:8443/api/graphql" None.

Definition outboundProxy : option string := Some "http://egress.internal:3128".

Definition gitHubClient : GitHubClient.t (World Body) string :=
  GitHubClient.instantiate cloudConfig bunyan GitHubClient.noProxyConfig.

Definition gqlError (m : string) (t : option string) : GraphQLError :=
  {| GraphQL.message := m; GraphQL.type := t |}.

Definition reply (d : option string) (es : option (list GraphQLError)) : AxiosResponse Body :=
  ok (Some {| GraphQL.data := d; GraphQL.errors := es |}).

Definition rateLimitedReply : AxiosResponse Body :=
  reply None
    (Some [gqlError "Resource not accessible by integration" (Some "FORBIDDEN");
           gqlError "API rate limit exceeded" (Some "RATE_LIMITED");
           gqlError "Could not resolve to a Repository" (Some "NOT_FOUND")]).

Definition threeErrorsReply : AxiosResponse Body :=
  reply None
    (Some [gqlError "Could not resolve to a Repository" (Some "NOT_FOUND");
           gqlError "Resource not accessible by integration" (Some "FORBIDDEN");
           gqlError "Something went wrong" None]).

Definition oneErrorReply : AxiosResponse Body :=
  reply (Some "{}") (Some [gqlError "Could not resolve to a Repository" (Some "NOT_FOUND")]).

(** Types that are not the marker: other casing, other markers, none. *)
Definition nearMissReply : AxiosResponse Body :=
  reply None
    (Some [gqlError "slow down" (Some "rate_limited");
           gqlError "slow down" (Some "RATE_LIMIT");
           gqlError "slow down" None]).

Definition emptyErrorsReply : AxiosResponse Body := reply None (Some []).
Definition noDataReply : AxiosResponse Body := reply None None.

Definition worldReplying (r : AxiosResponse Body) : World Body :=
  withReplies [Resolved r] blank.

Definition viewerQuery : string := "{ viewer { login } }".

(** The client asks its query of a network that will answer [r]. *)
Definition ask (r : AxiosResponse Body)
  : Settled (AxiosResponse Body) (Failure Body) * World Body :=
  GitHubClient.graphql gitHubClient viewerQuery emptyConfig None (worldReplying r).

(** The world once the network has answered. *)
Definition answered (r : AxiosResponse Body) : World Body :=
  snd (Axios.post (GitHubClient.axios gitHubClient) (GitHubClient.graphqlUrl gitHubClient)
         {| query := viewerQuery; variables := None |} emptyConfig (worldReplying r)).

End ScenarioGraphQL.

(* ===================================================================== *)
(** ** The HTTP routes ([routes/api/api-router.ts]) *)
(* ===================================================================== *)

(** A value that may be [undefined] or [null]. *)
Inductive Nullable (A : Type) : Type :=
| Undefined
| Null
| Value (a : A).
Arguments Undefined {A}.
Arguments Null {A}.
Arguments Value {A} a.

(** What a [catch (err)] clause of the routes reads of the value it
    caught: [err.status], [err.HttpError], and a description for the log.
    A [TypeError] raised by a property access on [undefined] or [null] has
    neither of the first two. *)
Record Thrown := {
  status : option Z;
  HttpError : option string;
  description : string
}.

Definition typeError (what : string) : Thrown :=
  {| status := None; HttpError := None; description := "TypeError: " +:+ what |}.

(** The express response and request-log calls a handler makes, in the
    order it makes them. *)
Module Express.

(** The JSON bodies the routes send. *)
Inductive Json : Type :=
| ErrorsAndQuery (errors : list GraphQLError) (viewerPermissionQuery : string)
| ErrorAndMessage (error message : string)
| Messages (messages : option (list string)).

Inductive Action : Type :=
| AddLogFields (login : Nullable string)          (* req.addLogFields({ login }) *)
| LogInfo (msg : string)                          (* req.log.info(msg) *)
| LogInfoErr (err : Thrown)                       (* req.log.info({ err }) *)
| LogError (err : Thrown) (msg : string)          (* req.log.error({ err }, msg) *)
| SendStatus (code : Z)                           (* res.sendStatus(code) *)
| StatusJson (code : option Z) (body : Json)      (* res.status(code).json(body) *)
| StatusSend (code : Z) (body : option string)    (* res.status(code).send(body) *)
| Next.                                           (* next() *)

(** The action ends the handling of the request in this handler: a
    response is sent, or the request is passed on. *)
Definition settles (a : Action) : bool :=
  match a with
  | SendStatus _ | StatusJson _ _ | StatusSend _ _ | Next => true
  | AddLogFields _ | LogInfo _ | LogInfoErr _ | LogError _ _ => false
  end.

(** The action sends a response. *)
Definition responds (a : Action) : bool :=
  match a with
  | SendStatus _ | StatusJson _ _ | StatusSend _ _ => true
  | _ => false
  end.

(** A route handler: from the world before to the calls made and the
    world after. *)
Definition Handler (W : Type) : Type := W -> list Action * W.

(** The last call of a handler settles the request and none before it
    does. *)
Definition settlesAtTheEnd (actions : list Action) : Prop :=
  exists before last,
    actions = before ++ [last]
    /\ settles last = true
    /\ forallb (fun a => negb (settles a)) before = true.

End Express.

Module ApiRouter.
Import Express.

(** [s.split(sep)] for a separator of one character. *)
Fixpoint split (sep : ascii) (s : string) : list string :=
  match s with
  | EmptyString => [""]
  | String c s' =>
      if Ascii.eqb c sep then "" :: split sep s'
      else match split sep s' with
           | piece :: pieces => String c piece :: pieces
           | [] => [String c ""]
           end
  end.

(** [`${v}`] for a value that may be [undefined] or [null]. *)
Definition template {A} (render : A -> string) (v : Nullable A) : string :=
  match v with
  | Undefined => "undefined"
  | Null => "null"
  | Value a => render a
  end.

Definition renderBoolean (b : bool) : string := if b then "true" else "false".

(** The shape of the answer to [viewerPermissionQuery]. *)
Record Organization := {
  viewerCanAdminister : Nullable bool
}.

Record Viewer := {
  login : Nullable string;
  organization : Nullable Organization
}.

Record ViewerData := {
  viewer : Nullable Viewer
}.

(** The response body: [errors] is an array when present ([None] is an
    absent or [null] key). *)
Record ViewerResponse := {
  data : Nullable ViewerData;
  errors : option (list GraphQLError)
}.

Definition quote : string := String (ascii_of_nat 34) "".
Definition newline : string := String (ascii_of_nat 10) "".

Definition viewerPermissionQuery : string :=
  "{" +:+ newline +:+
  "  viewer {" +:+ newline +:+
  "    login" +:+ newline +:+
  "    organization(login: " +:+ quote +:+ "fusion-arc" +:+ quote +:+ ") {" +:+ newline +:+
  "      viewerCanAdminister" +:+ newline +:+
  "    }" +:+ newline +:+
  "  }" +:+ newline +:+
  "}" +:+ newline.

(** [viewer.organization?.viewerCanAdminister]. *)
Definition organizationCanAdminister (v : Viewer) : Nullable bool :=
  match organization v with
  | Value o => viewerCanAdminister o
  | Undefined | Null => Undefined
  end.

(** [validAdminPermission(viewer)] for a [viewer] that is an object:
    [viewer.organization?.viewerCanAdminister || false]. *)
Definition validAdminPermission (v : Viewer) : bool :=
  match organizationCanAdminister v with
  | Value true => true
  | Value false | Undefined | Null => false
  end.

(** The argument of [octokit.request]. *)
Record RequestOptions := {
  headers : list (string * string);
  method : string;
  query : string;
  url : string
}.

Definition viewerRequest : RequestOptions :=
  {| headers := [("Accept", "application/json"); ("Content-Type", "application/json")];
     method := "POST";
     query := viewerPermissionQuery;
     url := "/graphql" |}.

(** [GithubAPI({ auth }).request(options)] of [config/github-api],
    followed by [.data]: the body ([None] when there is none), or what the
    call throws. *)
Class GithubAPI (W : Type) :=
  octokitRequest : option string -> RequestOptions -> Async W Thrown (option ViewerResponse).

(** The request, as far as the middleware reads it:
    [req.get("Authorization")]. *)
Record Request := {
  authorization : option string
}.

(** The string holds the character. *)
Fixpoint contains (c : ascii) (s : string) : bool :=
  match s with
  | EmptyString => false
  | String c' s' => Ascii.eqb c' c || contains c s'
  end.

(** [token.split(" ")[1]]. *)
Definition credential (token : string) : option string :=
  nth_error (split " "%char token) 1.

(** [data && data.viewer && data.viewer.login]. *)
Definition loginField (d : Nullable ViewerData) : Nullable string :=
  match d with
  | Undefined => Undefined
  | Null => Null
  | Value d' =>
      match viewer d' with
      | Undefined => Undefined
      | Null => Null
      | Value v => login v
      end
  end.

(** The [catch] clause of the middleware. *)
Definition onError (err : Thrown) : list Action :=
  LogInfoErr err ::
  match status err with
  | Some s =>
      if (s =? 401)%Z then [StatusSend 401 (HttpError err)] else [SendStatus 500]
  | None => [SendStatus 500]
  end.

Definition deniedMessage (v : Viewer) : string :=
  "User attempted to access staff routes: login=" +:+ template id (login v) +:+
  ", viewerCanAdminister=" +:+ template renderBoolean (organizationCanAdminister v).

Definition grantedMessage (v : Viewer) : string :=
  "Staff routes accessed: login=" +:+ template id (login v) +:+
  ", viewerCanAdminister=" +:+ template renderBoolean (organizationCanAdminister v).

Section Middleware.
Context {W : Type} {api : GithubAPI W}.

(** The middleware in front of every staff route: the second
    [ApiRouter.use(async (req, res, next) => ...)]. *)
Definition staffMiddleware (req : Request) : Handler W :=
  fun w =>
    match authorization req with
    | None => ([SendStatus 404], w)
    | Some token =>
        if negb (JS.truthy (Some token)) then ([SendStatus 404], w)
        else
          match octokitRequest (credential token) viewerRequest w with
          | (Rejected err, w') => (onError err, w')
          | (Resolved None, w') =>
              (onError (typeError "cannot destructure 'data' of undefined"), w')
          | (Resolved (Some body), w') =>
              let logged := [AddLogFields (loginField (data body))] in
              match errors body with
              | Some es =>
                  (logged ++ [StatusJson (Some 401%Z) (ErrorsAndQuery es viewerPermissionQuery)],
                   w')
              | None =>
                  match data body with
                  | Value d =>
                      match viewer d with
                      | Value v =>
                          if negb (validAdminPermission v)
                          then (logged ++
                                [LogInfo (deniedMessage v);
                                 StatusJson (Some 401%Z)
                                   (ErrorAndMessage "Unauthorized"
                                      "Token provided does not have required access")],
                                w')
                          else (logged ++ [LogInfo (grantedMessage v); Next], w')
                      | Undefined | Null =>
                          (logged ++
                           onError (typeError "cannot read 'organization' of undefined"), w')
                      end
                  | Undefined | Null =>
                      (logged ++ onError (typeError "cannot read 'viewer' of undefined"), w')
                  end
              end
          end
    end.

End Middleware.

End ApiRouter.

(** *** [GithubCreateBranchPost] *)

Module CreateBranch.
Import Express.

(** [res.locals.gitHubAppConfig], of which [gitHubAppId] is read. *)
Record GitHubAppConfig := {
  gitHubAppId : option Z
}.

(** [res.locals]. *)
Record Locals := {
  githubToken : option string;
  jiraHost : option string;
  gitHubAppConfig : option GitHubAppConfig
}.

(** [req.body]. *)
Record Body := {
  owner : option string;
  repo : option string;
  sourceBranchName : option string;
  newBranchName : option string
}.

(** The answer of [getReference]: [response.data.object.sha]. *)
Record GitObject := { sha : string }.
Record GitReference := { object : GitObject }.
Record ReferenceResponse := { data : GitReference }.

(** The third argument of [createReference]. *)
Record NewReference := {
  ref_owner : string;
  ref_repo : string;
  ref : string;
  ref_sha : string
}.

(** [createUserClient] of [util/get-github-client-config] and the two
    methods of the user client the route calls; [C] is the client. *)
Class UserClientAPI (W C : Type) := {
  createUserClient : string -> option string -> option Z -> Async W Thrown C;
  getReference : C -> string -> string -> string -> Async W Thrown ReferenceResponse;
  createReference : C -> string -> string -> NewReference -> Async W Thrown unit
}.

(** The [errorMessages] table. *)
Definition errorMessagesTable : list (Z * list string) :=
  [(403%Z,
    ["This GitHub repository hasn't been configured to your Jira site. <a href='#'>Allow access to this repository.</a>"]);
   (400%Z,
    ["Missing information, please check if the values for owner, repository, source branch name and the new branch name are valid."]);
   (422%Z,
    ["This GitHub branch already exists. Please use a different branch name.";
     "The Github Branch name is not valid."]);
   (404%Z,
    ["This GitHub source branch does not exist. Please use a different branch."]);
   (500%Z, ["Oops, something unexpected happened."])].

(** [errorMessages[code]]: [None] ([undefined]) for a key the table does
    not have. *)
Definition errorMessages (code : Z) : option (list string) :=
  option_map snd (find (fun entry => (fst entry =? code)%Z) errorMessagesTable).

(** [err?.status || 500]: an absent status and the status [0] are falsy. *)
Definition statusOr500 (err : Thrown) : Z :=
  match status err with
  | Some s => if (s =? 0)%Z then 500%Z else s
  | None => 500%Z
  end.

Section Route.
Context {W C : Type} {api : UserClientAPI W C}.

(** All four fields of the request body are present and not empty. *)
Definition complete (body : Body) : Prop :=
  JS.truthy (owner body) = true /\ JS.truthy (repo body) = true
  /\ JS.truthy (sourceBranchName body) = true /\ JS.truthy (newBranchName body) = true.

(** The body of the [try] block. *)
Definition createBranch (locals : Locals) (token owner repo sourceBranchName newBranchName : string)
  : Async W Thrown unit :=
  match gitHubAppConfig locals with
  | None => reject (typeError "cannot read 'gitHubAppId' of undefined")
  | Some appConfig =>
      (gitHubUserClient <- createUserClient token (jiraHost locals) (gitHubAppId appConfig) ;;
       response <- getReference gitHubUserClient owner repo sourceBranchName ;;
       let baseBranchSha := sha (object (data response)) in
       createReference gitHubUserClient owner repo
         {| ref_owner := owner;
            ref_repo := repo;
            ref := "refs/heads/" +:+ newBranchName;
            ref_sha := baseBranchSha |})%async
  end.

Definition GithubCreateBranchPost (locals : Locals) (body : Body) : Handler W :=
  fun w =>
    if negb (JS.truthy (githubToken locals)) then ([SendStatus 401], w)
    else if negb (JS.truthy (owner body)) || negb (JS.truthy (repo body))
            || negb (JS.truthy (sourceBranchName body))
            || negb (JS.truthy (newBranchName body))
    then ([StatusJson (Some 400%Z) (Messages (errorMessages 400))], w)
    else
      match createBranch locals
              (default "" (githubToken locals)) (default "" (owner body))
              (default "" (repo body)) (default "" (sourceBranchName body))
              (default "" (newBranchName body)) w with
      | (Resolved _, w') => ([SendStatus 200], w')
      | (Rejected err, w') =>
          ([LogError err "Error creating branch";
            StatusJson (status err) (Messages (errorMessages (statusOr500 err)))], w')
      end.

End Route.

End CreateBranch.

(** *** A world for the routes *)

Module ScenarioRoutes.
Import Express.

(** GitHub answers the permission query according to the credential it
    is given and counts the calls it receives. *)
Definition staff : ApiRouter.Viewer :=
  {| ApiRouter.login := Value "octocat";
     ApiRouter.organization := Value {| ApiRouter.viewerCanAdminister := Value true |} |}.

Definition outsider : ApiRouter.Viewer :=
  {| ApiRouter.login := Value "mallory"; ApiRouter.organization := Null |}.

Definition answer (v : ApiRouter.Viewer) : ApiRouter.ViewerResponse :=
  {| ApiRouter.data := Value {| ApiRouter.viewer := Value v |};
     ApiRouter.errors := None |}.

#[export] Instance github : ApiRouter.GithubAPI nat :=
  fun auth _ calls =>
    match auth with
    | Some "staff-token" => (Resolved (Some (answer staff)), S calls)
    | Some "outsider-token" => (Resolved (Some (answer outsider)), S calls)
    | Some "expired-token" =>
        (Rejected {| status := Some 401%Z; HttpError := None;
                     description := "Bad credentials" |}, S calls)
    | Some "erroring-token" =>
        (Resolved (Some {| ApiRouter.data := Value {| ApiRouter.viewer := Value staff |};
                           ApiRouter.errors := Some [] |}), S calls)
    | _ => (Resolved (Some {| ApiRouter.data := Null; ApiRouter.errors := None |}), S calls)
    end.

Definition bearer (t : string) : ApiRouter.Request :=
  {| ApiRouter.authorization := Some ("Bearer " +:+ t) |}.

(** The branches of a repository, by name, with the commit each points
    at.  Creating a reference that exists fails with 422, reading one that
    does not with 404. *)
Definition Repository := list (string * string).

Fixpoint lookupRef (name : string) (r : Repository) : option string :=
  match r with
  | [] => None
  | (n, s) :: r' => if String.eqb n name then Some s else lookupRef name r'
  end.

Definition failure (code : Z) (what : string) : Thrown :=
  {| status := Some code; HttpError := None; description := what |}.

#[export] Instance userClient : CreateBranch.UserClientAPI Repository string :=
  {| CreateBranch.createUserClient := fun token _ _ repository =>
       if String.eqb token "revoked" then (Rejected (failure 403 "Forbidden"), repository)
       else (Resolved token, repository);
     CreateBranch.getReference := fun _ _ _ branch repository =>
       match lookupRef ("refs/heads/" +:+ branch) repository with
       | Some s =>
           (Resolved {| CreateBranch.data :=
                          {| CreateBranch.object := {| CreateBranch.sha := s |} |} |},
            repository)
       | None => (Rejected (failure 404 "Not Found"), repository)
       end;
     CreateBranch.createReference := fun _ _ _ new repository =>
       match lookupRef (CreateBranch.ref new) repository with
       | Some _ => (Rejected (failure 422 "Reference already exists"), repository)
       | None =>
           (Resolved tt, (CreateBranch.ref new, CreateBranch.ref_sha new) :: repository)
       end |}.

Definition repository : Repository := [("refs/heads/main", "4f0c1e9")].

Definition locals : CreateBranch.Locals :=
  {| CreateBranch.githubToken := Some "user-token";
     CreateBranch.jiraHost := Some "https://acme.atlassian.net";
     CreateBranch.gitHubAppConfig := Some {| CreateBranch.gitHubAppId := None |} |}.

Definition branchRequest (source new : string) : CreateBranch.Body :=
  {| CreateBranch.owner := Some "acme"; CreateBranch.repo := Some "widgets";
     CreateBranch.sourceBranchName := Some source;
     CreateBranch.newBranchName := Some new |}.

End ScenarioRoutes.

(** *** More inputs for the clients *)

Module ScenarioMore.
Import Scenario ScenarioGraphQL.

(** An API URL that is no URL. *)
Definition brokenConfig : GitHubConfig :=
  GitHubConfig.make "ghe.example.com" "https://ghe.example.com" "ghe.example.com/api/v3"
    "https://ghe.example.com/api/graphql" None.

(** A host that ends with the trusted domain's name without being in it. *)
Definition lookalikeUrl : string := "https://evilatlassian.com/api/v3".

(** A request configuration that already has an [Authorization] header
    and one more. *)
Definition preauthorized : AxiosRequestConfig :=
  withHeaders emptyConfig
    (<["Authorization" := "token user-supplied"]> (<["X-Trace" := "7"]> ∅)).

(** A world in which the holder has no token for the identity. *)
Definition tokenlessWorld : World string :=
  withReplies [Resolved (ok (Some "{}"))] blank.

End ScenarioMore.

(* ===================================================================== *)
(** * Properties *)
(* ===================================================================== *)

(** ** Strings and the axios chain *)

Lemma append_empty_r (s : string) : s +:+ "" = s.
Proof.
  induction s as [|c s IH]; [reflexivity|].
  change (String c (s +:+ "") = String c s). now f_equal.
Qed.

Lemma looseEqString_spec (v : option string) (s : string) :
  JS.looseEqString v s = true <-> v = Some s.
Proof.
  destruct v as [x|]; simpl.
  - rewrite String.eqb_eq. split; [intros -> | intros [= ->]]; reflexivity.
  - split; discriminate.
Qed.

Lemma truthy_Some (s : string) : JS.truthy (Some s) = true <-> s <> "".
Proof.
  unfold JS.truthy. rewrite negb_true_iff. split.
  - intros Hf ->. discriminate.
  - intros Hne. apply String.eqb_neq. exact Hne.
Qed.

Section AxiosFacts.
Context {W B E : Type}.
Implicit Types inst : AxiosInstance W B E.

Lemma fold_cons_rev {A} (l acc : list A) :
  fold_left (fun chain i => i :: chain) l acc = rev l ++ acc.
Proof.
  revert acc. induction l as [|x l IH]; intros acc; simpl; [reflexivity|].
  rewrite IH, <- app_assoc. reflexivity.
Qed.

Lemma fold_snoc_app {A} (l acc : list A) :
  fold_left (fun chain i => chain ++ [i]) l acc = acc ++ l.
Proof.
  revert acc. induction l as [|x l IH]; intros acc; simpl.
  - now rewrite app_nil_r.
  - rewrite IH, <- app_assoc. reflexivity.
Qed.

(** Request interceptors run in the reverse of their registration
    order, response interceptors in registration order. *)
Lemma requestChain_rev inst : requestChain inst = rev (requestInterceptors inst).
Proof. unfold requestChain. rewrite fold_cons_rev. apply app_nil_r. Qed.

Lemma responseChain_id inst : responseChain inst = responseInterceptors inst.
Proof. unfold responseChain. apply fold_snoc_app. Qed.

(** A freshly created instance sends the merged configuration straight
    to the transport. *)
Lemma request_create
    (transport : AxiosRequestConfig -> Async W E (AxiosResponse B))
    (defaults0 config : AxiosRequestConfig) (w : W) :
  request (create transport defaults0) config w
  = transport (mergeConfig defaults0 config) w.
Proof.
  unfold request, untraced, requestTraced, dispatched, requestPhase, requestChain,
    responseChain.
  simpl. destruct (transport _ w) as [r w']. reflexivity.
Qed.

End AxiosFacts.

(** ** [GitHubClient.graphql] *)

Section GraphQLProperties.
Context {W T : Type} {network : Network W (GraphQlQueryResponse T)}.

Local Abbreviation Body := (GraphQlQueryResponse T).
Implicit Types (self : GitHubClient.t W T) (response : AxiosResponse Body)
  (graphqlErrors : list GraphQLError) (w : W).

Lemma find_rate_limited graphqlErrors :
  GitHubClient.hasRateLimitEntry graphqlErrors <->
  exists err,
    find (fun err => JS.looseEqString (GraphQL.type err) "RATE_LIMITED") graphqlErrors
    = Some err.
Proof.
  split.
  - intros (err & Hin & Hty).
    destruct (find _ graphqlErrors) as [found|] eqn:Hfind; [eauto|].
    apply (find_none _ _ Hfind) in Hin.
    rewrite Hty in Hin. vm_compute in Hin. discriminate.
  - intros (err & Hfind). apply find_some in Hfind as (Hin & Hty).
    exists err. split; [exact Hin|]. now apply looseEqString_spec.
Qed.

Lemma find_not_rate_limited graphqlErrors :
  ~ GitHubClient.hasRateLimitEntry graphqlErrors ->
  find (fun err => JS.looseEqString (GraphQL.type err) "RATE_LIMITED") graphqlErrors = None.
Proof.
  intros Hno. destruct (find _ graphqlErrors) as [found|] eqn:Hfind; [|reflexivity].
  exfalso. apply Hno. apply find_rate_limited. eauto.
Qed.

(** What [graphql] does once the transport has answered. *)
Lemma graphql_after_post self query config variables w response w' :
  Axios.post (GitHubClient.axios self) (GitHubClient.graphqlUrl self)
    {| query := query; variables := variables |} config w = (Resolved response, w') ->
  GitHubClient.graphql self query config variables w =
  match GitHubClient.embeddedErrors response with
  | Some (first :: rest) =>
      let w'' := warn (GitHubClient.logger self) response "GraphQL errors" w' in
      match find (fun err => JS.looseEqString (GraphQL.type err) "RATE_LIMITED")
              (first :: rest) with
      | Some _ => (Rejected (RateLimitingError response), w'')
      | None =>
          (Rejected (GithubClientGraphQLError
                       (GitHubClient.graphQlErrorMessage first (first :: rest))
                       (first :: rest)), w'')
      end
  | Some [] | None => (Resolved response, w')
  end.
Proof.
  intros Hpost. unfold GitHubClient.graphql, await.
  rewrite Hpost.
  destruct (GitHubClient.embeddedErrors response) as [[|first rest]|]; try reflexivity.
  cbv beta iota zeta delta [await perform].
  destruct (find _ (first :: rest)); reflexivity.
Qed.

(** A transport failure is the failure of [graphql]. *)
Lemma graphql_transport_failure self query config variables w e w' :
  Axios.post (GitHubClient.axios self) (GitHubClient.graphqlUrl self)
    {| query := query; variables := variables |} config w = (Rejected e, w') ->
  GitHubClient.graphql self query config variables w = (Rejected e, w').
Proof.
  intros Hpost. unfold GitHubClient.graphql, await. now rewrite Hpost.
Qed.

(** C1. When the transport succeeds and the errors sequence of the
    response body has an entry of type ["RATE_LIMITED"], [graphql]
    rejects with [RateLimitingError] carrying the whole response,
    whatever other errors the sequence holds; the rejection is never
    the aggregated [GithubClientGraphQLError]. *)
Theorem graphql_rate_limit_rejection
    self query config variables w response w' graphqlErrors :
  Axios.post (GitHubClient.axios self) (GitHubClient.graphqlUrl self)
    {| query := query; variables := variables |} config w = (Resolved response, w') ->
  GitHubClient.embeddedErrors response = Some graphqlErrors ->
  GitHubClient.hasRateLimitEntry graphqlErrors ->
  GitHubClient.graphql self query config variables w
  = (Rejected (RateLimitingError response),
     warn (GitHubClient.logger self) response "GraphQL errors" w')
  /\ forall m es,
       fst (GitHubClient.graphql self query config variables w)
       <> Rejected (GithubClientGraphQLError m es).
Proof.
  intros Hpost Herrs Hrate.
  assert (Hres : GitHubClient.graphql self query config variables w
                 = (Rejected (RateLimitingError response),
                    warn (GitHubClient.logger self) response "GraphQL errors" w')).
  { rewrite (graphql_after_post _ _ _ _ _ _ _ Hpost), Herrs.
    apply find_rate_limited in Hrate as (found & Hfind).
    destruct graphqlErrors as [|first rest]; [discriminate Hfind|].
    cbv zeta. now rewrite Hfind. }
  split; [exact Hres|].
  intros m es. rewrite Hres. simpl. discriminate.
Qed.

(** C2. When the errors sequence is non-empty, of length [n], and no
    entry is of rate-limit type, [graphql] rejects with
    [GithubClientGraphQLError] whose payload is the whole sequence and
    whose message is the first error's message alone for [n = 1], and
    that message followed by [" and "], [n - 1] and [" more errors"] for
    [n > 1]: for three errors, ["<first message> and 2 more errors"]. *)
Theorem graphql_generic_error_message
    self query config variables w response w' first rest :
  Axios.post (GitHubClient.axios self) (GitHubClient.graphqlUrl self)
    {| query := query; variables := variables |} config w = (Resolved response, w') ->
  GitHubClient.embeddedErrors response = Some (first :: rest) ->
  ~ GitHubClient.hasRateLimitEntry (first :: rest) ->
  exists msg,
    GitHubClient.graphql self query config variables w
    = (Rejected (GithubClientGraphQLError msg (first :: rest)),
       warn (GitHubClient.logger self) response "GraphQL errors" w')
    /\ (length (first :: rest) = 1 -> msg = GraphQL.message first)
    /\ (length (first :: rest) > 1 ->
        msg = GraphQL.message first +:+ " and "
              +:+ JS.numberToString (length (first :: rest) - 1) +:+ " more errors")
    /\ (length (first :: rest) = 3 ->
        msg = GraphQL.message first +:+ " and 2 more errors").
Proof.
  intros Hpost Herrs Hno.
  exists (GitHubClient.graphQlErrorMessage first (first :: rest)).
  split.
  - rewrite (graphql_after_post _ _ _ _ _ _ _ Hpost), Herrs. cbv zeta.
    now rewrite (find_not_rate_limited _ Hno).
  - unfold GitHubClient.graphQlErrorMessage. repeat split.
    + intros Hlen. rewrite Hlen. simpl. apply append_empty_r.
    + intros Hlen. destruct (Nat.ltb_spec 1 (length (first :: rest))); [reflexivity | lia].
    + intros Hlen. rewrite Hlen. reflexivity.
Qed.

(** C3. When the errors sequence is absent or empty, [graphql] resolves
    with the very response the transport returned, and leaves the world
    as the transport left it; this does not depend on the [data] field
    of the body, nor on there being a body at all. *)
Theorem graphql_without_errors_resolves
    self query config variables w response w' :
  Axios.post (GitHubClient.axios self) (GitHubClient.graphqlUrl self)
    {| query := query; variables := variables |} config w = (Resolved response, w') ->
  GitHubClient.embeddedErrors response = None \/ GitHubClient.embeddedErrors response = Some [] ->
  GitHubClient.graphql self query config variables w = (Resolved response, w').
Proof.
  intros Hpost Herrs. rewrite (graphql_after_post _ _ _ _ _ _ _ Hpost).
  destruct Herrs as [-> | ->]; reflexivity.
Qed.

(** C9. Once the transport has answered, [graphql] rejects with
    [RateLimitingError] if and only if some entry of the errors sequence
    has a [type] loosely equal to ["RATE_LIMITED"], which for a [type]
    that is a string or absent means being exactly that string; with a
    non-empty sequence and no such entry the rejection is the generic
    [GithubClientGraphQLError]. *)
Theorem graphql_rate_limit_iff
    self query config variables w response w' :
  Axios.post (GitHubClient.axios self) (GitHubClient.graphqlUrl self)
    {| query := query; variables := variables |} config w = (Resolved response, w') ->
  ((exists r, fst (GitHubClient.graphql self query config variables w)
              = Rejected (RateLimitingError r))
   <-> exists graphqlErrors err,
         GitHubClient.embeddedErrors response = Some graphqlErrors /\ In err graphqlErrors /\
         JS.looseEqString (GraphQL.type err) "RATE_LIMITED" = true)
  /\ (forall err : GraphQLError,
        JS.looseEqString (GraphQL.type err) "RATE_LIMITED" = true
        <-> GraphQL.type err = Some "RATE_LIMITED")
  /\ (forall first rest,
        GitHubClient.embeddedErrors response = Some (first :: rest) ->
        (forall err, In err (first :: rest) -> GraphQL.type err <> Some "RATE_LIMITED") ->
        exists msg,
          fst (GitHubClient.graphql self query config variables w)
          = Rejected (GithubClientGraphQLError msg (first :: rest))).
Proof.
  intros Hpost. rewrite (graphql_after_post _ _ _ _ _ _ _ Hpost).
  split; [|split].
  - split.
    + intros (r & Hr).
      destruct (GitHubClient.embeddedErrors response) as [[|first rest]|]; try discriminate Hr.
      cbv zeta in Hr.
      destruct (find _ (first :: rest)) as [found|] eqn:Hfind; [|discriminate Hr].
      apply find_some in Hfind as (Hin & Hty).
      exists (first :: rest), found. auto.
    + intros (graphqlErrors & err & Herrs & Hin & Hty).
      assert (Hrate : GitHubClient.hasRateLimitEntry graphqlErrors).
      { exists err. split; [exact Hin | now apply looseEqString_spec]. }
      apply find_rate_limited in Hrate as (found & Hfind).
      rewrite Herrs. destruct graphqlErrors as [|first rest]; [discriminate Hfind|].
      cbv zeta. rewrite Hfind. eexists. reflexivity.
  - intros err. apply looseEqString_spec.
  - intros first rest Herrs Hno. rewrite Herrs. cbv zeta.
    rewrite find_not_rate_limited.
    + eexists. reflexivity.
    + intros (err & Hin & Hty). exact (Hno err Hin Hty).
Qed.

End GraphQLProperties.

(** ** The proxy selection of the [GitHubClient] constructor *)

Section ProxyProperties.
Context {W T : Type} {runtime : Runtime} {network : Network W (GraphQlQueryResponse T)}.

Local Abbreviation Body := (GraphQlQueryResponse T).
Implicit Types (gitHubConfig : GitHubConfig) (logger : Logger W Body) (w : W).

Lemma truthy_false (v : option string) :
  JS.truthy v = false <-> v = None \/ v = Some "".
Proof.
  destruct v as [s|]; simpl.
  - rewrite negb_false_iff, String.eqb_eq. split.
    + intros ->. now right.
    + intros [Hn | [= ->]]; [discriminate | reflexivity].
  - split; [now left | reflexivity].
Qed.

(** Without a usable [proxyBaseUrl] the constructor takes the
    [getProxyConfig] branch and touches nothing outside. *)
Lemma proxyConfigFor_implicit gitHubConfig logger restApiUrl w :
  JS.truthy (GitHubConfig.proxyBaseUrl gitHubConfig) = false ->
  GitHubClient.proxyConfigFor gitHubConfig logger restApiUrl w
  = (GitHubClient.getProxyConfig restApiUrl, w).
Proof.
  intros Hf. unfold GitHubClient.proxyConfigFor.
  destruct (GitHubConfig.proxyBaseUrl gitHubConfig) as [p|]; [|reflexivity].
  now rewrite Hf.
Qed.

Lemma constructor_implicit gitHubConfig logger w proxyConfig :
  JS.truthy (GitHubConfig.proxyBaseUrl gitHubConfig) = false ->
  GitHubClient.getProxyConfig (T:=T) (GitHubConfig.apiUrl gitHubConfig)
  = Resolved proxyConfig ->
  GitHubClient.constructor gitHubConfig logger w
  = (Resolved (GitHubClient.instantiate gitHubConfig logger proxyConfig), w).
Proof.
  intros Hf Hcfg. unfold GitHubClient.constructor, await.
  rewrite (proxyConfigFor_implicit _ _ _ _ Hf), Hcfg. reflexivity.
Qed.

(** C4 (amended). For every configuration whose [proxyBaseUrl] is a
    non-empty string, construction succeeds whatever the target host is
    (even one the URL parser rejects), logs that the outbound proxy is
    used, and yields a transport configuration with an HTTP and an HTTPS
    proxy agent for that URL and [proxy: false]. *)
Theorem explicit_proxy_both_agents gitHubConfig logger w p :
  GitHubConfig.proxyBaseUrl gitHubConfig = Some p ->
  p <> "" ->
  exists client,
    GitHubClient.constructor gitHubConfig logger w
    = (Resolved client, info logger "Using outbound proxy" w)
    /\ GitHubClient.usesExplicitProxy client p.
Proof.
  intros Hp Hne. apply truthy_Some in Hne.
  unfold GitHubClient.constructor, GitHubClient.proxyConfigFor, await.
  rewrite Hp, Hne. simpl.
  eexists. split; [reflexivity|].
  repeat split.
Qed.

(** C5 (amended). For every configuration without a usable
    [proxyBaseUrl] (absent or empty) whose API URL parses, construction
    succeeds and leaves the world untouched (no log entry, no network
    traffic); no HTTP agent is attached and [proxy] is [false]; when the
    URL's [host] (the hostname, followed by the port when the URL names
    a non-default one) ends with ["atlassian.com"] there is no HTTPS
    agent either; otherwise the HTTPS agent is a proxy agent for the
    process-wide [PROXY] setting when that is a non-empty string, and
    there is none when the setting is absent or empty. *)
Theorem proxy_selection_by_host gitHubConfig logger w u :
  JS.truthy (GitHubConfig.proxyBaseUrl gitHubConfig) = false ->
  newURL (GitHubConfig.apiUrl gitHubConfig) = Some u ->
  exists client,
    GitHubClient.constructor gitHubConfig logger w = (Resolved client, w)
    /\ httpAgent (defaults (GitHubClient.axios client)) = None
    /\ proxy (defaults (GitHubClient.axios client)) = Some ProxyFalse
    /\ (JS.endsWith (JS.host u) "atlassian.com" = true ->
        GitHubClient.usesNoAgent client)
    /\ (JS.endsWith (JS.host u) "atlassian.com" = false ->
        (forall p, PROXY envVars = Some p -> p <> "" ->
                   httpsAgent (defaults (GitHubClient.axios client))
                   = Some (HttpsProxyAgent p))
        /\ (PROXY envVars = None \/ PROXY envVars = Some "" ->
            GitHubClient.usesNoAgent client)).
Proof.
  intros Hf Hu.
  assert (Hcfg : exists proxyConfig,
             GitHubClient.getProxyConfig (T:=T) (GitHubConfig.apiUrl gitHubConfig)
             = Resolved proxyConfig
             /\ proxyConfig = (if JS.endsWith (JS.host u) "atlassian.com"
                               then GitHubClient.noProxyConfig
                               else GitHubClient.outboundProxyConfig)).
  { unfold GitHubClient.getProxyConfig. rewrite Hu.
    destruct (JS.endsWith (JS.host u) "atlassian.com"); eauto. }
  destruct Hcfg as (proxyConfig & Hcfg & Hshape).
  eexists. split; [apply (constructor_implicit _ _ _ _ Hf Hcfg)|].
  subst proxyConfig.
  destruct (JS.endsWith (JS.host u) "atlassian.com"); simpl.
  - repeat split; intros; discriminate.
  - split; [reflexivity|]. split; [reflexivity|]. split; [discriminate|].
    intros _. split.
    + intros p Hp Hne. apply truthy_Some in Hne. simpl in Hne.
      rewrite Hp. simpl. rewrite Hne. reflexivity.
    + unfold GitHubClient.usesNoAgent. simpl.
      intros [Hp | Hp]; rewrite Hp; split; reflexivity.
Qed.

(** C10. With no explicit [proxyBaseUrl] and a target host outside the
    trusted domain, the transport configuration has no HTTP agent, so an
    [http:] request has no agent to go through and connects directly,
    even when the process-wide proxy is configured, in which case the
    HTTPS agent is a proxy agent for it; the explicit-proxy path, in
    contrast, installs an agent for each scheme. *)
Theorem outbound_proxy_https_only gitHubConfig logger w u :
  GitHubConfig.proxyBaseUrl gitHubConfig = None ->
  newURL (GitHubConfig.apiUrl gitHubConfig) = Some u ->
  JS.endsWith (JS.host u) "atlassian.com" = false ->
  (exists client,
     GitHubClient.constructor gitHubConfig logger w = (Resolved client, w)
     /\ httpAgent (defaults (GitHubClient.axios client)) = None
     /\ agentFor "http:" (defaults (GitHubClient.axios client)) = None
     /\ proxy (defaults (GitHubClient.axios client)) = Some ProxyFalse
     /\ (forall p, PROXY envVars = Some p -> p <> "" ->
           agentFor "https:" (defaults (GitHubClient.axios client))
           = Some (HttpsProxyAgent p)))
  /\ (forall p logger' w',
        exists explicit,
          fst (GitHubClient.buildProxyConfig (T:=T) logger' p w') = Resolved explicit
          /\ agentFor "http:" explicit = Some (HttpProxyAgent p)
          /\ agentFor "https:" explicit = Some (HttpsProxyAgent p)).
Proof.
  intros Hnone Hu Hhost. split.
  - assert (Hf : JS.truthy (GitHubConfig.proxyBaseUrl gitHubConfig) = false)
      by now rewrite Hnone.
    assert (Hcfg : GitHubClient.getProxyConfig (T:=T) (GitHubConfig.apiUrl gitHubConfig)
                   = Resolved GitHubClient.outboundProxyConfig).
    { unfold GitHubClient.getProxyConfig. now rewrite Hu, Hhost. }
    eexists. split; [apply (constructor_implicit _ _ _ _ Hf Hcfg)|].
    simpl. repeat split.
    intros p Hp Hne. apply truthy_Some in Hne. simpl in Hne.
    unfold agentFor. simpl. rewrite Hp. simpl. rewrite Hne. reflexivity.
  - intros p logger' w'. eexists. split; [reflexivity|]. split; reflexivity.
Qed.

End ProxyProperties.

(** ** The [GitHubAppClient] pipeline *)

Section AppClientProperties.
Context {W B : Type} {network : Network W B} {interceptors : Interceptors W B}.
Variables (id : InstallationId) (log : Logger W B) (holder : AppTokenHolder W B).

Import GitHubAppClient.

Local Abbreviation client := (GitHubAppClient.constructor id log holder).
Local Abbreviation authenticated config t :=
  (withHeaders config
     (<["Accept" := "application/vnd.github.machine-man-preview+json"]>
        (<["Authorization" := "Bearer " +:+ token t]> ∅) ∪ headers config)).

(** The request side of a call, step by step: the authentication
    interceptor first, then the three imported interceptors, last
    registered first. *)
Lemma requestPhase_constructor (config : AxiosRequestConfig) (w : W) :
  requestPhase (axios client) config w =
  match getAppToken holder id w with
  | (Rejected e, w1) => (Rejected e, w1, ["appAuthenticationHeaders"])
  | (Resolved t, w1) =>
      match urlParamsMiddleware
              (authenticated (mergeConfig (defaults (axios client)) config) t) w1 with
      | (Rejected e, w2) =>
          (Rejected e, w2, ["appAuthenticationHeaders"; "urlParamsMiddleware"])
      | (Resolved c2, w2) =>
          match setRequestTimeout c2 w2 with
          | (Rejected e, w3) =>
              (Rejected e, w3,
               ["appAuthenticationHeaders"; "urlParamsMiddleware"; "setRequestTimeout"])
          | (Resolved c3, w3) =>
              let '(r, w4) := setRequestStartTime c3 w3 in
              (r, w4,
               ["appAuthenticationHeaders"; "urlParamsMiddleware"; "setRequestTimeout";
                "setRequestStartTime"])
          end
      end
  end.
Proof.
  unfold requestPhase. rewrite requestChain_rev.
  unfold constructor, onFulfilled, useRequest, useResponse, create.
  cbn [axios requestInterceptors app rev fold_left].
  unfold thenInterceptor.
  cbn [fulfilled rejected run name authenticationInterceptor].
  unfold appAuthenticationHeaders, await, resolve.
  destruct (getAppToken holder id w) as [[t|e] w1]; [|reflexivity].
  cbn [app defaults].
  destruct (urlParamsMiddleware _ w1) as [[c2|e] w2]; [|reflexivity].
  cbn [app].
  destruct (setRequestTimeout c2 w2) as [[c3|e] w3]; [|reflexivity].
  cbn [app].
  destruct (setRequestStartTime c3 w3) as [r w4]. reflexivity.
Qed.

(** The response side: failure classification first, instrumentation
    second. *)
Lemma requestTraced_constructor (config : AxiosRequestConfig) (w : W) :
  requestTraced (axios client) config w =
  match dispatched (axios client) config w with
  | (Resolved r, w1, tr) =>
      let '(r', w2) := instrumentRequest metricHttpRequest_github r w1 in
      (r', w2, tr ++ ["instrumentRequest"])
  | (Rejected e, w1, tr) =>
      match handleFailedRequest log e w1 with
      | (Resolved r, w2) =>
          let '(r', w3) := instrumentRequest metricHttpRequest_github r w2 in
          (r', w3, (tr ++ ["handleFailedRequest"]) ++ ["instrumentRequest"])
      | (Rejected e', w2) =>
          let '(r', w3) := instrumentFailedRequest metricHttpRequest_github e' w2 in
          (r', w3, (tr ++ ["handleFailedRequest"]) ++ ["instrumentFailedRequest"])
      end
  end.
Proof.
  unfold requestTraced. rewrite responseChain_id.
  generalize (dispatched (axios client) config). intros d.
  unfold constructor, onFulfilled, useRequest, useResponse, create.
  cbn [axios responseInterceptors app fold_left].
  unfold thenInterceptor.
  cbn [fulfilled rejected run name].
  destruct (d w) as [[[r|e] w1] tr].
  - destruct (instrumentRequest metricHttpRequest_github r w1) as [r' w2]. reflexivity.
  - destruct (handleFailedRequest log e w1) as [[r|e'] w2].
    + destruct (instrumentRequest metricHttpRequest_github r w2) as [r' w3]. reflexivity.
    + destruct (instrumentFailedRequest metricHttpRequest_github e' w2) as [r' w3].
      reflexivity.
Qed.

(** Each method is one [request] on the instance. *)
Lemma invoke_request (call : Call) (w : W) :
  invoke client call w = request (axios client) (callRequest call) w.
Proof.
  destruct call; try reflexivity.
  unfold invoke, getInstallation, await, resolve, get, callRequest.
  destruct (request _ _ w) as [[r|e] w']; reflexivity.
Qed.

(** The headers of a request that goes out are those the authentication
    interceptor produced from the token current when the call started. *)
Lemma outgoing_carries_token (config out : AxiosRequestConfig) (w : W) :
  keepsHeaders urlParamsMiddleware ->
  keepsHeaders setRequestTimeout ->
  keepsHeaders setRequestStartTime ->
  outgoing (axios client) config w = Some out ->
  exists t w1,
    getAppToken holder id w = (Resolved t, w1) /\ carriesAppToken out t.
Proof.
  intros Hurl Htimeout Hstart. unfold outgoing.
  rewrite requestPhase_constructor.
  destruct (getAppToken holder id w) as [[t|e] w1]; [|discriminate].
  destruct (urlParamsMiddleware _ w1) as [[c2|e] w2] eqn:E2; [|discriminate].
  destruct (setRequestTimeout c2 w2) as [[c3|e] w3] eqn:E3; [|discriminate].
  destruct (setRequestStartTime c3 w3) as [[c4|e] w4] eqn:E4; [|discriminate].
  intros [= <-]. exists t, w1. split; [reflexivity|].
  apply Hurl in E2. apply Htimeout in E3. apply Hstart in E4.
  unfold carriesAppToken. rewrite E4, E3, E2. cbn [withHeaders headers].
  split.
  - apply lookup_union_Some_l. rewrite lookup_insert_ne by discriminate.
    apply lookup_insert_eq.
  - apply lookup_union_Some_l. apply lookup_insert_eq.
Qed.

(** C6. Every request the App Client sends, whichever of the four
    methods issued it, carries [Authorization: Bearer <token>] for the
    token the holder returns for the installation identity when the call
    is dispatched, and the app-preview [Accept] header; of two calls one
    after the other with the holder's state changed in between, each
    carries the token current at its own dispatch.  (The three imported
    request interceptors run after the header is injected and are
    required to hand the headers on.) *)
Theorem app_token_fetched_at_each_dispatch
    (call1 call2 : Call) (rotation : W -> W) (w : W)
    (t1 t2 : AppToken) (out1 out2 : AxiosRequestConfig) :
  keepsHeaders urlParamsMiddleware ->
  keepsHeaders setRequestTimeout ->
  keepsHeaders setRequestStartTime ->
  fst (getAppToken holder id w) = Resolved t1 ->
  outgoing (axios client) (callRequest call1) w = Some out1 ->
  fst (getAppToken holder id (rotation (snd (invoke client call1 w)))) = Resolved t2 ->
  outgoing (axios client) (callRequest call2) (rotation (snd (invoke client call1 w)))
  = Some out2 ->
  carriesAppToken out1 t1 /\ carriesAppToken out2 t2.
Proof.
  intros Hurl Htimeout Hstart Ht1 Hout1 Ht2 Hout2.
  destruct (outgoing_carries_token _ _ _ Hurl Htimeout Hstart Hout1)
    as (t & w1 & Htok & Hcarries).
  rewrite Htok in Ht1. injection Ht1 as ->.
  destruct (outgoing_carries_token _ _ _ Hurl Htimeout Hstart Hout2)
    as (t & w2 & Htok2 & Hcarries2).
  rewrite Htok2 in Ht2. injection Ht2 as ->.
  split; assumption.
Qed.

(** C7 (amended). The constructor registers the request interceptors in
    the order start time, timeout, URL parameters, authentication
    header, and the response interceptors as failure classification
    followed by instrumentation.  On every call that reaches the
    transport the request interceptors have run in the reverse of that
    order: authentication header, URL parameters, timeout, start time,
    and then the transport.  When the call fails before or in the
    transport, the failure classifier runs and then the failure
    instrumentation, and if both reject again, as their contract says,
    the call is rejected. *)
Theorem request_interceptors_run_last_registered_first (call : Call) (w : W) :
  map handlerNames (requestInterceptors (axios client))
  = [(Some "setRequestStartTime", None); (Some "setRequestTimeout", None);
     (Some "urlParamsMiddleware", None); (Some "appAuthenticationHeaders", None)]
  /\ map handlerNames (responseInterceptors (axios client))
     = [(None, Some "handleFailedRequest");
        (Some "instrumentRequest", Some "instrumentFailedRequest")]
  /\ (forall out,
        outgoing (axios client) (callRequest call) w = Some out ->
        exists after,
          traceOf (requestTraced (axios client) (callRequest call)) w
          = ["appAuthenticationHeaders"; "urlParamsMiddleware"; "setRequestTimeout";
             "setRequestStartTime"; "dispatchRequest"] ++ after)
  /\ (rejectsAgain (handleFailedRequest log) ->
      rejectsAgain (instrumentFailedRequest metricHttpRequest_github) ->
      forall e,
        fst (fst (dispatched (axios client) (callRequest call) w)) = Rejected e ->
        (exists e', fst (invoke client call w) = Rejected e')
        /\ exists before,
             traceOf (requestTraced (axios client) (callRequest call)) w
             = before ++ ["handleFailedRequest"; "instrumentFailedRequest"]).
Proof.
  split; [reflexivity|]. split; [reflexivity|]. split.
  - intros out Hout. unfold traceOf.
    rewrite requestTraced_constructor. unfold dispatched.
    unfold outgoing in Hout. rewrite requestPhase_constructor in *.
    destruct (getAppToken holder id w) as [[t|e] w1]; [|discriminate].
    destruct (urlParamsMiddleware _ w1) as [[c2|e] w2]; [|discriminate].
    destruct (setRequestTimeout c2 w2) as [[c3|e] w3]; [|discriminate].
    destruct (setRequestStartTime c3 w3) as [[c4|e] w4]; [|discriminate].
    cbn [run name dispatchRequest].
    destruct (adapter (axios client) c4 w4) as [[r|e] w5].
    + destruct (instrumentRequest metricHttpRequest_github r w5) as [r' w6].
      eexists. reflexivity.
    + destruct (handleFailedRequest log e w5) as [[r|e'] w6].
      * destruct (instrumentRequest metricHttpRequest_github r w6) as [r' w7].
        eexists. cbn [snd]. rewrite <- app_assoc. reflexivity.
      * destruct (instrumentFailedRequest metricHttpRequest_github e' w6) as [r' w7].
        eexists. cbn [snd]. rewrite <- app_assoc. reflexivity.
  - intros Hclassify Hinstrument e Hfail.
    rewrite invoke_request. unfold request, untraced, traceOf.
    rewrite requestTraced_constructor.
    destruct (dispatched (axios client) (callRequest call) w) as [[[r|e0] w1] tr];
      [discriminate Hfail|].
    destruct (Hclassify e0 w1) as (e1 & w2 & ->).
    destruct (Hinstrument e1 w2) as (e2 & w3 & ->).
    split.
    + exists e2. reflexivity.
    + exists tr. cbn [snd]. rewrite <- app_assoc. reflexivity.
Qed.

(** C8 (amended). The header-injection step has one authentication
    mode: no method passes a header or a flag of its own (the request
    [getInstallation] builds holds its URL parameter and nothing else),
    and any two calls dispatched from the same state of the world go
    out with the same app-token [Authorization] and [Accept] headers,
    [getInstallation] included. *)
Theorem one_authentication_mode_for_all_endpoints
    (call1 call2 : Call) (w : W) (out1 out2 : AxiosRequestConfig) :
  keepsHeaders urlParamsMiddleware ->
  keepsHeaders setRequestTimeout ->
  keepsHeaders setRequestStartTime ->
  outgoing (axios client) (callRequest call1) w = Some out1 ->
  outgoing (axios client) (callRequest call2) w = Some out2 ->
  headers (callRequest call1) = ∅
  /\ headers (callRequest call2) = ∅
  /\ exists t,
       fst (getAppToken holder id w) = Resolved t
       /\ carriesAppToken out1 t /\ carriesAppToken out2 t.
Proof.
  intros Hurl Htimeout Hstart Hout1 Hout2.
  split; [destruct call1; reflexivity|]. split; [destruct call2; reflexivity|].
  destruct (outgoing_carries_token _ _ _ Hurl Htimeout Hstart Hout1)
    as (t & w1 & Htok & Hcarries).
  destruct (outgoing_carries_token _ _ _ Hurl Htimeout Hstart Hout2)
    as (t' & w2 & Htok' & Hcarries').
  rewrite Htok in Htok'. injection Htok' as <- <-.
  exists t. rewrite Htok. auto.
Qed.

End AppClientProperties.

(* ===================================================================== *)
(** * The properties at work in the concrete world *)
(* ===================================================================== *)

Section Examples.
Import Scenario ScenarioGraphQL GitHubAppClient.

(** The scenario client is what the constructor builds. *)
Example gitHubClient_constructed :
  GitHubClient.constructor (runtime := Scenario.runtime None) cloudConfig bunyan blank
  = (Resolved gitHubClient, blank).
Proof. reflexivity. Qed.

Lemma post_answers (r : AxiosResponse Body) :
  Axios.post (GitHubClient.axios gitHubClient) (GitHubClient.graphqlUrl gitHubClient)
    {| query := viewerQuery; variables := None |} emptyConfig (worldReplying r)
  = (Resolved r, answered r).
Proof. reflexivity. Qed.

(** One rate-limit entry between two others: the rate-limit rejection. *)
Lemma graphql_rate_limit_rejection_witness :
  GitHubClient.hasRateLimitEntry
    [gqlError "Resource not accessible by integration" (Some "FORBIDDEN");
     gqlError "API rate limit exceeded" (Some "RATE_LIMITED");
     gqlError "Could not resolve to a Repository" (Some "NOT_FOUND")]
  /\ fst (ask rateLimitedReply) = Rejected (RateLimitingError rateLimitedReply)
  /\ logs (snd (ask rateLimitedReply)) = [("warn", "GraphQL errors")].
Proof.
  assert (Hrate : GitHubClient.hasRateLimitEntry
            [gqlError "Resource not accessible by integration" (Some "FORBIDDEN");
             gqlError "API rate limit exceeded" (Some "RATE_LIMITED");
             gqlError "Could not resolve to a Repository" (Some "NOT_FOUND")]).
  { exists (gqlError "API rate limit exceeded" (Some "RATE_LIMITED")).
    split; [simpl; auto | reflexivity]. }
  split; [exact Hrate|].
  destruct (graphql_rate_limit_rejection gitHubClient viewerQuery emptyConfig None
              (worldReplying rateLimitedReply) rateLimitedReply
              (answered rateLimitedReply) _
              (post_answers rateLimitedReply) eq_refl Hrate) as [Hres _].
  unfold ask. rewrite Hres. split; reflexivity.
Defined.

Lemma no_rate_limit_entry (graphqlErrors : list GraphQLError) :
  forallb (fun err => negb (JS.looseEqString (GraphQL.type err) "RATE_LIMITED"))
    graphqlErrors = true ->
  ~ GitHubClient.hasRateLimitEntry graphqlErrors.
Proof.
  intros Hall (err & Hin & Hty).
  rewrite forallb_forall in Hall. specialize (Hall err Hin).
  rewrite Hty in Hall. discriminate Hall.
Qed.

(** Three errors, none of rate-limit type. *)
Lemma graphql_generic_error_message_witness :
  fst (ask threeErrorsReply)
  = Rejected (GithubClientGraphQLError
                "Could not resolve to a Repository and 2 more errors"
                [gqlError "Could not resolve to a Repository" (Some "NOT_FOUND");
                 gqlError "Resource not accessible by integration" (Some "FORBIDDEN");
                 gqlError "Something went wrong" None]).
Proof.
  destruct (graphql_generic_error_message gitHubClient viewerQuery emptyConfig None
              (worldReplying threeErrorsReply) threeErrorsReply
              (answered threeErrorsReply)
              (gqlError "Could not resolve to a Repository" (Some "NOT_FOUND"))
              [gqlError "Resource not accessible by integration" (Some "FORBIDDEN");
               gqlError "Something went wrong" None]
              (post_answers threeErrorsReply) eq_refl
              (no_rate_limit_entry
                 [gqlError "Could not resolve to a Repository" (Some "NOT_FOUND");
                  gqlError "Resource not accessible by integration" (Some "FORBIDDEN");
                  gqlError "Something went wrong" None] eq_refl))
    as (msg & Hres & _ & _ & Hthree).
  unfold ask. rewrite Hres, (Hthree eq_refl). reflexivity.
Defined.

(** A single error: its message, verbatim. *)
Example graphql_single_error :
  fst (ask oneErrorReply)
  = Rejected (GithubClientGraphQLError "Could not resolve to a Repository"
                [gqlError "Could not resolve to a Repository" (Some "NOT_FOUND")]).
Proof. reflexivity. Qed.

(** No [errors] key and no [data] key: the response comes back as it
    is, and nothing is logged. *)
Lemma graphql_without_errors_resolves_witness :
  GitHubClient.embeddedErrors noDataReply = None
  /\ ask noDataReply = (Resolved noDataReply, answered noDataReply)
  /\ logs (answered noDataReply) = [].
Proof.
  split; [reflexivity|]. split; [|reflexivity].
  apply (graphql_without_errors_resolves gitHubClient viewerQuery emptyConfig None
           (worldReplying noDataReply) noDataReply (answered noDataReply)
           (post_answers noDataReply)).
  left. reflexivity.
Defined.

Example graphql_empty_errors :
  ask emptyErrorsReply = (Resolved emptyErrorsReply, answered emptyErrorsReply).
Proof. unfold ask. rewrite (graphql_after_post _ _ _ _ _ _ _ (post_answers _)). reflexivity. Qed.

(** Lower case, a truncated marker and a missing [type] are not the
    marker: the rejection is the generic one. *)
Lemma graphql_rate_limit_iff_witness :
  exists msg,
    fst (ask nearMissReply)
    = Rejected (GithubClientGraphQLError msg
                  [gqlError "slow down" (Some "rate_limited");
                   gqlError "slow down" (Some "RATE_LIMIT");
                   gqlError "slow down" None]).
Proof.
  destruct (graphql_rate_limit_iff gitHubClient viewerQuery emptyConfig None
              (worldReplying nearMissReply) nearMissReply (answered nearMissReply)
              (post_answers nearMissReply)) as (_ & _ & Hgeneric).
  apply (Hgeneric (gqlError "slow down" (Some "rate_limited"))
           [gqlError "slow down" (Some "RATE_LIMIT"); gqlError "slow down" None]
           eq_refl).
  intros err [<- | [<- | [<- | []]]]; discriminate.
Defined.

(** *** Proxy selection *)

(** An explicit proxy in front of a GitHub Enterprise Server. *)
Lemma explicit_proxy_both_agents_witness :
  exists client,
    fst (GitHubClient.constructor (runtime := Scenario.runtime outboundProxy)
           proxiedConfig bunyan (@blank Body)) = Resolved client
    /\ GitHubClient.usesExplicitProxy client "http://proxy.internal:8080".
Proof.
  destruct (explicit_proxy_both_agents (runtime := Scenario.runtime outboundProxy)
              proxiedConfig bunyan (@blank Body) "http://proxy.internal:8080"
              eq_refl ltac:(discriminate))
    as (client & Hres & Huses).
  exists client. rewrite Hres. split; [reflexivity | exact Huses].
Defined.

(** [proxyBaseUrl] present but empty: the constructor falls through to
    the host-based selection, which attaches the outbound HTTPS agent
    and no HTTP agent. *)
Lemma empty_proxyBaseUrl_counterexample :
  GitHubConfig.proxyBaseUrl emptyProxyConfig = Some ""
  /\ exists client,
       GitHubClient.constructor (runtime := Scenario.runtime outboundProxy)
         emptyProxyConfig bunyan (@blank Body) = (Resolved client, blank)
       /\ httpAgent (defaults (GitHubClient.axios client)) = None
       /\ httpsAgent (defaults (GitHubClient.axios client))
          = Some (HttpsProxyAgent "http://egress.internal:3128")
       /\ ~ GitHubClient.usesExplicitProxy client "".
Proof.
  split; [reflexivity|].
  eexists. split; [reflexivity|]. split; [reflexivity|]. split; [reflexivity|].
  intros (Hhttp & _). discriminate Hhttp.
Defined.

(** A host of the trusted domain on the default port: no agent, although
    the process-wide proxy is configured. *)
Lemma proxy_selection_by_host_witness :
  exists client,
    GitHubClient.constructor (runtime := Scenario.runtime outboundProxy)
      atlassianConfig bunyan (@blank Body) = (Resolved client, blank)
    /\ GitHubClient.usesNoAgent client.
Proof.
  destruct (proxy_selection_by_host (runtime := Scenario.runtime outboundProxy)
              atlassianConfig bunyan (@blank Body)
              (JS.mkURL "https:" "github.internal.atlassian.com" "")
              eq_refl eq_refl)
    as (client & Hres & _ & _ & Htrusted & _).
  exists client. split; [exact Hres | exact (Htrusted eq_refl)].
Defined.

(** The same hostname with port 8443: the hostname ends with
    ["atlassian.com"], the [host] the code tests does not, and the
    outbound HTTPS agent is attached. *)
Lemma trusted_hostname_with_port_counterexample :
  GitHubConfig.proxyBaseUrl portedAtlassianConfig = None
  /\ (exists u,
        JS.parseURL (GitHubConfig.apiUrl portedAtlassianConfig) = Some u
        /\ JS.hostname u = "github.internal.atlassian.com"
        /\ JS.endsWith (JS.hostname u) "atlassian.com" = true
        /\ JS.host u = "github.internal.atlassian.com:8443")
  /\ exists client,
       GitHubClient.constructor (runtime := Scenario.runtime outboundProxy)
         portedAtlassianConfig bunyan (@blank Body) = (Resolved client, blank)
       /\ httpsAgent (defaults (GitHubClient.axios client))
          = Some (HttpsProxyAgent "http://egress.internal:3128")
       /\ ~ GitHubClient.usesNoAgent client.
Proof.
  split; [reflexivity|]. split.
  - eexists. split; [reflexivity|]. repeat split.
  - eexists. split; [reflexivity|]. split; [reflexivity|].
    intros (_ & Hhttps). discriminate Hhttps.
Defined.

(** A customer's server, no explicit proxy, process-wide proxy set:
    HTTPS goes through the proxy, plain HTTP does not. *)
Lemma outbound_proxy_https_only_witness :
  exists client,
    GitHubClient.constructor (runtime := Scenario.runtime outboundProxy)
      gheConfig bunyan (@blank Body) = (Resolved client, blank)
    /\ agentFor "http:" (defaults (GitHubClient.axios client)) = None
    /\ agentFor "https:" (defaults (GitHubClient.axios client))
       = Some (HttpsProxyAgent "http://egress.internal:3128").
Proof.
  destruct (outbound_proxy_https_only (runtime := Scenario.runtime outboundProxy)
              gheConfig bunyan (@blank Body)
              (JS.mkURL "https:" "ghe.example.com" "")
              eq_refl eq_refl eq_refl)
    as ((client & Hres & _ & Hhttp & _ & Hhttps) & _).
  exists client. split; [exact Hres|]. split; [exact Hhttp|].
  apply (Hhttps "http://egress.internal:3128" eq_refl). discriminate.
Defined.

(** *** The App Client *)

Lemma scenario_keepsHeaders :
  keepsHeaders (W:=World string) urlParamsMiddleware
  /\ keepsHeaders (W:=World string) setRequestTimeout
  /\ keepsHeaders (W:=World string) setRequestStartTime.
Proof.
  repeat split; intros config w config' w'; cbn; unfold setField, resolve.
  - intros [= <- _].
    destruct (urlParams config), (url config); reflexivity.
  - intros [= <- _]. reflexivity.
  - intros [= <- _]. reflexivity.
Qed.

Lemma scenario_rejectsAgain :
  rejectsAgain (handleFailedRequest (W:=World string) bunyan)
  /\ rejectsAgain (A:=AxiosResponse string)
       (instrumentFailedRequest (W:=World string)
          (metricHttpRequest_github (W:=World string) (B:=string))).
Proof.
  split; intros e w.
  - destruct e; cbn; eauto.
  - cbn. eauto.
Qed.

(** [getApp] under the first token, a rotation, [getInstallation] under
    the second: each request carries the token of its own dispatch. *)
Lemma app_token_fetched_at_each_dispatch_witness :
  match outgoing (axios appClient) (callRequest GetApp) appWorld,
        outgoing (axios appClient) (callRequest (GetInstallation 42)) rotatedWorld with
  | Some out1, Some out2 => carriesAppToken out1 token1 /\ carriesAppToken out2 token2
  | _, _ => False
  end.
Proof.
  destruct scenario_keepsHeaders as (Hurl & Htimeout & Hstart).
  destruct (outgoing (axios appClient) (callRequest GetApp) appWorld)
    as [out1|] eqn:E1; [|vm_compute in E1; discriminate E1].
  destruct (outgoing (axios appClient) (callRequest (GetInstallation 42)) rotatedWorld)
    as [out2|] eqn:E2; [|vm_compute in E2; discriminate E2].
  apply (app_token_fetched_at_each_dispatch identity bunyan holder
           GetApp (GetInstallation 42) (rotate identity token2) appWorld
           token1 token2 out1 out2 Hurl Htimeout Hstart).
  - vm_compute. reflexivity.
  - exact E1.
  - vm_compute. reflexivity.
  - exact E2.
Defined.

(** What the network received, in order; the second request has its URL
    parameter filled in. *)
Example app_requests_on_the_wire :
  map (fun c => (url c, headers c !! "Authorization"))
    (wire (snd (invoke appClient (GetInstallation 42) rotatedWorld)))
  = [(Some "/app", Some "Bearer jwt-one");
     (Some "/installations/42", Some "Bearer jwt-two")].
Proof. vm_compute. reflexivity. Qed.

(** A successful [getApp]: the handlers that ran, in order.  The request
    interceptor registered last runs first. *)
Lemma request_order_counterexample :
  traceOf (requestTraced (axios appClient) (callRequest GetApp)) appWorld
  = ["appAuthenticationHeaders"; "urlParamsMiddleware"; "setRequestTimeout";
     "setRequestStartTime"; "dispatchRequest"; "instrumentRequest"]
  /\ firstn 4 (traceOf (requestTraced (axios appClient) (callRequest GetApp)) appWorld)
     <> ["setRequestStartTime"; "setRequestTimeout"; "urlParamsMiddleware";
         "appAuthenticationHeaders"].
Proof.
  split; [vm_compute; reflexivity|].
  vm_compute. discriminate.
Defined.

(** [getInstallations] against an unreachable network: the request side
    runs last registered first, the failure is classified, instrumented
    and rejected. *)
Lemma request_interceptors_run_last_registered_first_witness :
  traceOf (requestTraced (axios appClient) (callRequest GetInstallations)) offlineWorld
  = ["appAuthenticationHeaders"; "urlParamsMiddleware"; "setRequestTimeout";
     "setRequestStartTime"; "dispatchRequest"; "handleFailedRequest";
     "instrumentFailedRequest"]
  /\ exists e', fst (invoke appClient GetInstallations offlineWorld) = Rejected e'.
Proof.
  destruct scenario_rejectsAgain as (Hclassify & Hinstrument).
  destruct (request_interceptors_run_last_registered_first identity bunyan holder
              GetInstallations offlineWorld)
    as (_ & _ & _ & Hfailure).
  destruct (Hfailure Hclassify Hinstrument
              (AxiosError "Network Error" (Some "ECONNREFUSED") None)
              ltac:(vm_compute; reflexivity))
    as (Hrejected & _).
  split; [vm_compute; reflexivity | exact Hrejected].
Defined.

(** [getInstallation] and [getApp] from the same world: the method
    passes no header of its own and both requests leave with identical
    headers. *)
Lemma getInstallation_passes_no_token_counterexample :
  headers (callConfig (GetInstallation 42)) !! "Authorization" = None
  /\ match outgoing (axios appClient) (callRequest (GetInstallation 42)) appWorld,
           outgoing (axios appClient) (callRequest GetApp) appWorld with
     | Some out1, Some out2 =>
         headers out1 = headers out2
         /\ headers out1 !! "Authorization" = Some "Bearer jwt-one"
     | _, _ => False
     end.
Proof.
  split; [reflexivity|].
  vm_compute. split; reflexivity.
Defined.

Lemma one_authentication_mode_for_all_endpoints_witness :
  match outgoing (axios appClient) (callRequest (GetInstallation 42)) appWorld,
        outgoing (axios appClient)
          (callRequest (GetUserMembershipForOrg "octocat" "acme")) appWorld with
  | Some out1, Some out2 => carriesAppToken out1 token1 /\ carriesAppToken out2 token1
  | _, _ => False
  end.
Proof.
  destruct scenario_keepsHeaders as (Hurl & Htimeout & Hstart).
  destruct (outgoing (axios appClient) (callRequest (GetInstallation 42)) appWorld)
    as [out1|] eqn:E1; [|vm_compute in E1; discriminate E1].
  destruct (outgoing (axios appClient)
              (callRequest (GetUserMembershipForOrg "octocat" "acme")) appWorld)
    as [out2|] eqn:E2; [|vm_compute in E2; discriminate E2].
  destruct (one_authentication_mode_for_all_endpoints identity bunyan holder
              (GetInstallation 42) (GetUserMembershipForOrg "octocat" "acme") appWorld
              out1 out2 Hurl Htimeout Hstart E1 E2)
    as (_ & _ & t & Ht & H1 & H2).
  assert (Htok : fst (getAppToken holder identity appWorld) = Resolved token1)
    by (vm_compute; reflexivity).
  rewrite Htok in Ht. injection Ht as <-. split; assumption.
Defined.

End Examples.

(* ===================================================================== *)
(** * Further properties of the clients *)
(* ===================================================================== *)

(** ** Suffixes *)

Lemma substring_all (s : string) : substring 0 (String.length s) s = s.
Proof. induction s as [|c s IH]; simpl; [reflexivity | now rewrite IH]. Qed.

Lemma substring_skip_prefix (p s : string) :
  substring (String.length p) (String.length s) (p +:+ s) = s.
Proof.
  induction p as [|c p IH]; simpl.
  - apply substring_all.
  - exact IH.
Qed.

Lemma length_append (p s : string) :
  String.length (p +:+ s) = String.length p + String.length s.
Proof. induction p as [|c p IH]; simpl; [reflexivity | now rewrite IH]. Qed.

Lemma substring_split (s : string) (a : nat) :
  a <= String.length s ->
  s = substring 0 a s +:+ substring a (String.length s - a) s.
Proof.
  revert a. induction s as [|c s IH]; intros a Ha.
  - destruct a; reflexivity.
  - destruct a as [|a].
    + simpl. now rewrite substring_all.
    + simpl in Ha. simpl.
      change (String c s
              = String c (substring 0 a s +:+ substring a (String.length s - a) s)).
      f_equal. apply IH. lia.
Qed.

(** [endsWith] is the suffix relation. *)
Lemma endsWith_iff (s suffix : string) :
  JS.endsWith s suffix = true <-> exists p, s = p +:+ suffix.
Proof.
  unfold JS.endsWith. rewrite andb_true_iff, Nat.leb_le, String.eqb_eq. split.
  - intros (Hle & Hsub).
    exists (substring 0 (String.length s - String.length suffix) s).
    pose proof (substring_split s (String.length s - String.length suffix)
                  ltac:(lia)) as Hs.
    replace (String.length s - (String.length s - String.length suffix))
      with (String.length suffix) in Hs by lia.
    rewrite Hsub in Hs. exact Hs.
  - intros (p & ->). rewrite length_append. split; [lia|].
    replace (String.length p + String.length suffix - String.length suffix)
      with (String.length p) by lia.
    apply substring_skip_prefix.
Qed.

(** ** More on [GitHubClient] *)

Section GitHubClientOutcomes.
Context {W T : Type} {runtime : Runtime} {network : Network W (GraphQlQueryResponse T)}.

Local Abbreviation Body := (GraphQlQueryResponse T).
Implicit Types (self : GitHubClient.t W T) (gitHubConfig : GitHubConfig)
  (logger : Logger W Body) (w : W).

(** X1. Whenever [graphql] resolves, its value is the response the
    transport resolved with, the errors sequence of that response is
    absent or empty, and the world is as the transport left it: a caller
    that gets a response never has to look for embedded errors. *)
Theorem graphql_resolves_only_without_errors
    self query config variables w response w' :
  GitHubClient.graphql self query config variables w = (Resolved response, w') ->
  Axios.post (GitHubClient.axios self) (GitHubClient.graphqlUrl self)
    {| query := query; variables := variables |} config w = (Resolved response, w')
  /\ (GitHubClient.embeddedErrors response = None
      \/ GitHubClient.embeddedErrors response = Some []).
Proof.
  destruct (Axios.post (GitHubClient.axios self) (GitHubClient.graphqlUrl self)
              {| query := query; variables := variables |} config w)
    as [[r|e] w1] eqn:Hpost.
  - rewrite (graphql_after_post _ _ _ _ _ _ _ Hpost).
    destruct (GitHubClient.embeddedErrors r) as [[|first rest]|] eqn:Herrs.
    + intros [= <- <-]. auto.
    + cbv zeta. destruct (find _ (first :: rest)); discriminate.
    + intros [= <- <-]. auto.
  - rewrite (graphql_transport_failure _ _ _ _ _ _ _ Hpost). discriminate.
Qed.

(** X2. Whenever [graphql] rejects, either the transport rejected and the
    reason and the world are the transport's, untouched and unlogged, or
    the transport resolved with a response that embeds at least one
    error, one warning was logged, and the reason is one of the two typed
    failures built from that response. *)
Theorem graphql_rejection_origin
    self query config variables w reason w'' :
  GitHubClient.graphql self query config variables w = (Rejected reason, w'') ->
  Axios.post (GitHubClient.axios self) (GitHubClient.graphqlUrl self)
    {| query := query; variables := variables |} config w = (Rejected reason, w'')
  \/ exists response w' first rest,
       Axios.post (GitHubClient.axios self) (GitHubClient.graphqlUrl self)
         {| query := query; variables := variables |} config w = (Resolved response, w')
       /\ GitHubClient.embeddedErrors response = Some (first :: rest)
       /\ w'' = warn (GitHubClient.logger self) response "GraphQL errors" w'
       /\ (reason = RateLimitingError response
           \/ reason = GithubClientGraphQLError
                         (GitHubClient.graphQlErrorMessage first (first :: rest))
                         (first :: rest)).
Proof.
  destruct (Axios.post (GitHubClient.axios self) (GitHubClient.graphqlUrl self)
              {| query := query; variables := variables |} config w)
    as [[r|e] w1] eqn:Hpost.
  - rewrite (graphql_after_post _ _ _ _ _ _ _ Hpost).
    destruct (GitHubClient.embeddedErrors r) as [[|first rest]|] eqn:Herrs;
      try discriminate.
    cbv zeta.
    destruct (find _ (first :: rest)); intros [= <- <-];
      right; exists r, w1, first, rest; auto.
  - rewrite (graphql_transport_failure _ _ _ _ _ _ _ Hpost).
    intros [= <- <-]. now left.
Qed.

(** The proxy configuration the constructor spreads is one of three. *)
Lemma proxyConfigFor_cases gitHubConfig logger restApiUrl w proxyConfig w' :
  GitHubClient.proxyConfigFor gitHubConfig logger restApiUrl w = (Resolved proxyConfig, w') ->
  proxy proxyConfig = Some ProxyFalse /\ headers proxyConfig = ∅
  /\ baseURL proxyConfig = None /\ url proxyConfig = None.
Proof.
  unfold GitHubClient.proxyConfigFor, GitHubClient.getProxyConfig.
  destruct (GitHubConfig.proxyBaseUrl gitHubConfig) as [p|].
  - destruct (JS.truthy (Some p)).
    + intros [= <- <-]. repeat split.
    + destruct (newURL restApiUrl) as [u|]; [|discriminate].
      destruct (JS.endsWith (JS.host u) "atlassian.com"); intros [= <- <-]; repeat split.
  - destruct (newURL restApiUrl) as [u|]; [|discriminate].
    destruct (JS.endsWith (JS.host u) "atlassian.com"); intros [= <- <-]; repeat split.
Qed.


(** X4. Without a usable [proxyBaseUrl], an API URL that [new URL]
    rejects makes the constructor throw a [TypeError]: no client is
    built, and nothing has been logged or sent. *)
Theorem constructor_throws_on_invalid_url gitHubConfig logger w :
  JS.truthy (GitHubConfig.proxyBaseUrl gitHubConfig) = false ->
  newURL (GitHubConfig.apiUrl gitHubConfig) = None ->
  exists msg,
    GitHubClient.constructor gitHubConfig logger w = (Rejected (TypeError msg), w).
Proof.
  intros Hf Hurl. unfold GitHubClient.constructor, await.
  rewrite (proxyConfigFor_implicit _ _ _ _ Hf).
  unfold GitHubClient.getProxyConfig. rewrite Hurl. eexists. reflexivity.
Qed.

(** X5. The trusted-domain test is a plain suffix test on the host: any
    host that is some string followed by ["atlassian.com"], with or
    without a dot in front of it, gets the configuration without agent,
    and every other host gets the outbound configuration. *)
Theorem trusted_domain_is_a_bare_suffix (baseUrl : string) (u : JS.URL) :
  newURL baseUrl = Some u ->
  (forall p, JS.host u = p +:+ "atlassian.com" ->
     GitHubClient.getProxyConfig (T:=T) baseUrl = Resolved GitHubClient.noProxyConfig)
  /\ ((forall p, JS.host u <> p +:+ "atlassian.com") ->
      GitHubClient.getProxyConfig (T:=T) baseUrl = Resolved GitHubClient.outboundProxyConfig).
Proof.
  intros Hu. unfold GitHubClient.getProxyConfig. rewrite Hu. split.
  - intros p Hp.
    assert (He : JS.endsWith (JS.host u) "atlassian.com" = true)
      by (apply endsWith_iff; eauto).
    now rewrite He.
  - intros Hno.
    destruct (JS.endsWith (JS.host u) "atlassian.com") eqn:He; [|reflexivity].
    apply endsWith_iff in He as (p & Hp). now destruct (Hno p).
Qed.

End GitHubClientOutcomes.

(** ** More on [GitHubAppClient] *)

Section AppClientOutcomes.
Context {W B : Type} {network : Network W B} {interceptors : Interceptors W B}.
Variables (id : InstallationId) (log : Logger W B) (holder : AppTokenHolder W B).

Import GitHubAppClient.

Local Abbreviation client := (GitHubAppClient.constructor id log holder).
Local Abbreviation authenticationHeaders t :=
  (<["Accept" := "application/vnd.github.machine-man-preview+json"]>
     (<["Authorization" := "Bearer " +:+ token t]> (∅ : gmap string string))).

(** No method passes headers, and the instance has no default headers. *)
Lemma call_has_no_headers (call : Call) :
  headers (mergeConfig (defaults (axios client)) (callRequest call)) = ∅.
Proof.
  destruct call; cbn [mergeConfig headers callRequest withCall callConfig withUrlParams
                      emptyConfig];
    unfold constructor, useRequest, useResponse, create; cbn [axios defaults headers];
    apply (left_id_L ∅ (∪)).
Qed.

(** X6. The authentication interceptor, given any request configuration
    and a holder that returns a token, resolves with that configuration
    changed in its headers only: [Authorization] and [Accept] are set from
    the token, replacing whatever values the configuration had for them,
    and every other header is kept. *)
Theorem authentication_overrides_and_keeps_the_rest
    (config : AxiosRequestConfig) (w w1 : W) (t : AppToken) :
  getAppToken holder id w = (Resolved t, w1) ->
  exists config',
    run (authenticationInterceptor holder id) config w = (Resolved config', w1)
    /\ carriesAppToken config' t
    /\ (forall k, k <> "Accept" -> k <> "Authorization" ->
          headers config' !! k = headers config !! k)
    /\ withHeaders config' (headers config) = config.
Proof.
  intros Htok. eexists. split.
  - cbn [run authenticationInterceptor]. unfold appAuthenticationHeaders, await, resolve.
    rewrite Htok. reflexivity.
  - cbn [headers withHeaders]. split; [split|split].
    + apply lookup_union_Some_l. rewrite lookup_insert_ne by discriminate.
      apply lookup_insert_eq.
    + apply lookup_union_Some_l. apply lookup_insert_eq.
    + intros k Ha Hb. rewrite lookup_union_r; [reflexivity|].
      rewrite lookup_insert_ne by congruence.
      rewrite lookup_insert_ne by congruence. apply lookup_empty.
    + destruct config. reflexivity.
Qed.

(** X7. A request that goes out for any of the four methods has exactly
    two headers, the [Accept] and [Authorization] headers of the token
    current at dispatch: the methods and the instance contribute none.
    (The three imported request interceptors are required to hand the
    headers on.) *)
Theorem outgoing_headers_are_the_authentication_headers
    (call : Call) (w : W) (out : AxiosRequestConfig) :
  keepsHeaders urlParamsMiddleware ->
  keepsHeaders setRequestTimeout ->
  keepsHeaders setRequestStartTime ->
  outgoing (axios client) (callRequest call) w = Some out ->
  exists t, fst (getAppToken holder id w) = Resolved t
            /\ headers out = authenticationHeaders t.
Proof.
  intros Hurl Htimeout Hstart. unfold outgoing.
  rewrite requestPhase_constructor.
  destruct (getAppToken holder id w) as [[t|e] w1]; [|discriminate].
  destruct (urlParamsMiddleware _ w1) as [[c2|e] w2] eqn:E2; [|discriminate].
  destruct (setRequestTimeout c2 w2) as [[c3|e] w3] eqn:E3; [|discriminate].
  destruct (setRequestStartTime c3 w3) as [[c4|e] w4] eqn:E4; [|discriminate].
  intros [= <-]. exists t. split; [reflexivity|].
  apply Hurl in E2. apply Htimeout in E3. apply Hstart in E4.
  rewrite E4, E3, E2. cbn [withHeaders headers].
  rewrite call_has_no_headers. apply (right_id_L ∅ (∪)).
Qed.

(** X8. When the token holder fails, nothing is sent: the request side
    stops at the authentication interceptor, the transport is not
    invoked, and the outcome of the call is what the failure classifier
    and then the instrumentation make of the holder's failure. *)
Theorem token_failure_sends_nothing (call : Call) (w w1 : W) (e : Failure B) :
  getAppToken holder id w = (Rejected e, w1) ->
  outgoing (axios client) (callRequest call) w = None
  /\ ~ In "dispatchRequest" (traceOf (requestTraced (axios client) (callRequest call)) w)
  /\ invoke client call w
     = match handleFailedRequest log e w1 with
       | (Resolved r, w2) => instrumentRequest metricHttpRequest_github r w2
       | (Rejected e', w2) => instrumentFailedRequest metricHttpRequest_github e' w2
       end.
Proof.
  intros Htok.
  assert (Hphase : requestPhase (axios client) (callRequest call) w
                   = (Rejected e, w1, ["appAuthenticationHeaders"])).
  { rewrite requestPhase_constructor, Htok. reflexivity. }
  split; [unfold outgoing; now rewrite Hphase|].
  rewrite invoke_request. unfold request, untraced, traceOf.
  rewrite requestTraced_constructor. unfold dispatched. rewrite Hphase.
  destruct (handleFailedRequest log e w1) as [[r|e'] w2].
  - destruct (instrumentRequest metricHttpRequest_github r w2) as [r' w3].
    split; [|reflexivity]. cbn. intros [H|[H|[H|[]]]]; discriminate H.
  - destruct (instrumentFailedRequest metricHttpRequest_github e' w2) as [r' w3].
    split; [|reflexivity]. cbn. intros [H|[H|[H|[]]]]; discriminate H.
Qed.


(** X10. When the request goes out and the transport resolves, the
    failure classifier is not involved and the caller receives exactly
    what the success instrumentation returns for the transport's
    response. *)
Theorem success_is_instrumented_only
    (call : Call) (w w1 w2 : W) (out : AxiosRequestConfig) (tr : list string)
    (r : AxiosResponse B) :
  requestPhase (axios client) (callRequest call) w = (Resolved out, w1, tr) ->
  transport out w1 = (Resolved r, w2) ->
  invoke client call w = instrumentRequest metricHttpRequest_github r w2
  /\ ~ In "handleFailedRequest"
         (traceOf (requestTraced (axios client) (callRequest call)) w).
Proof.
  intros Hphase Hsend.
  assert (Htr : tr = ["appAuthenticationHeaders"; "urlParamsMiddleware";
                      "setRequestTimeout"; "setRequestStartTime"]).
  { rewrite requestPhase_constructor in Hphase.
    destruct (getAppToken holder id w) as [[t|e] w1']; [|discriminate].
    destruct (urlParamsMiddleware _ w1') as [[c2|e] w2']; [|discriminate].
    destruct (setRequestTimeout c2 w2') as [[c3|e] w3']; [|discriminate].
    destruct (setRequestStartTime c3 w3') as [[c4|e] w4']; [|discriminate].
    now injection Hphase as _ _ <-. }
  rewrite invoke_request. unfold request, untraced, traceOf.
  rewrite requestTraced_constructor. unfold dispatched. rewrite Hphase.
  cbn [run name dispatchRequest].
  change (adapter (axios client) out w1) with (transport out w1).
  rewrite Hsend.
  destruct (instrumentRequest metricHttpRequest_github r w2) as [r' w3].
  split; [reflexivity|]. subst tr. cbn.
  intros [H|[H|[H|[H|[H|[H|[]]]]]]]; discriminate H.
Qed.

End AppClientOutcomes.

(** ** The staff middleware *)

Section StaffMiddleware.
Context {W : Type} {api : ApiRouter.GithubAPI W}.
Import Express ApiRouter.

Implicit Types (req : Request) (w : W).

Lemma onError_settles (logged : list Action) (err : Thrown) :
  forallb (fun a => negb (settles a)) logged = true ->
  settlesAtTheEnd (logged ++ onError err).
Proof.
  intros Hlogged. unfold onError.
  assert (Hbefore : forallb (fun a => negb (settles a)) (logged ++ [LogInfoErr err]) = true)
    by (rewrite forallb_app, Hlogged; reflexivity).
  destruct (status err) as [s|]; [destruct (s =? 401)%Z|];
    eexists (logged ++ [LogInfoErr err]), _;
    (split; [rewrite <- app_assoc; reflexivity|]); split; auto.
Qed.

Lemma onError_never_passes_on (err : Thrown) : ~ In Next (onError err).
Proof.
  unfold onError.
  destruct (status err) as [s|]; [destruct (s =? 401)%Z|];
    cbn; intros [H|[H|[]]]; discriminate H.
Qed.

(** X11. Without an [Authorization] header, or with an empty one, the
    middleware answers 404 and does nothing else: GitHub is not asked and
    the request is not passed on. *)
Theorem staffMiddleware_without_token req w :
  authorization req = None \/ authorization req = Some "" ->
  staffMiddleware req w = ([SendStatus 404], w).
Proof.
  intros [Hreq | Hreq]; unfold staffMiddleware; rewrite Hreq; reflexivity.
Qed.

(** X12. The middleware passes the request on exactly when the header is
    not empty, GitHub answered the permission query for the credential in
    it with a body that has no [errors] key, and the viewer in that body
    has an organization whose [viewerCanAdminister] is [true]. *)
Theorem staffMiddleware_passes_on_iff_admin req w :
  In Next (fst (staffMiddleware req w))
  <-> exists token body d v o w',
        authorization req = Some token /\ token <> ""
        /\ octokitRequest (credential token) viewerRequest w = (Resolved (Some body), w')
        /\ errors body = None
        /\ data body = Value d /\ viewer d = Value v
        /\ organization v = Value o /\ viewerCanAdminister o = Value true.
Proof.
  split.
  - unfold staffMiddleware.
    destruct (authorization req) as [token|] eqn:Hreq;
      [|cbn; intros [H|[]]; discriminate H].
    destruct (JS.truthy (Some token)) eqn:Htruthy;
      [|cbn; intros [H|[]]; discriminate H].
    cbn [negb].
    destruct (octokitRequest (credential token) viewerRequest w) as [[[body|]|err] w'] eqn:Hask;
      cbn [fst]; try (intros Hin; now apply onError_never_passes_on in Hin).
    destruct (errors body) as [es|] eqn:Herrors;
      [cbn; intros [H|[H|[]]]; discriminate H|].
    destruct (data body) as [| |d] eqn:Hdata;
      try (cbn [app]; intros [H|Hin]; [discriminate H | now apply onError_never_passes_on in Hin]).
    destruct (viewer d) as [| |v] eqn:Hviewer;
      try (cbn [app]; intros [H|Hin]; [discriminate H | now apply onError_never_passes_on in Hin]).
    unfold validAdminPermission, organizationCanAdminister.
    destruct (organization v) as [| |o] eqn:Horg;
      try (cbn; intros [H|[H|[H|[]]]]; discriminate H).
    destruct (viewerCanAdminister o) as [| |[|]] eqn:Hcan;
      try (cbn; intros [H|[H|[H|[]]]]; discriminate H).
    intros _. exists token, body, d, v, o, w'.
    apply truthy_Some in Htruthy. auto 10.
  - intros (token & body & d & v & o & w' & Hreq & Hne & Hask & Herrors & Hdata & Hviewer
            & Horg & Hcan).
    apply truthy_Some in Hne.
    unfold staffMiddleware. rewrite Hreq, Hne. cbn [negb].
    rewrite Hask, Herrors, Hdata, Hviewer.
    unfold validAdminPermission, organizationCanAdminister. rewrite Horg, Hcan.
    cbn. auto.
Qed.

(** X13. Whatever the request and whatever GitHub does, the middleware
    settles the request exactly once and as its last step: it either
    sends one response or passes the request on, never both and never
    neither. *)
Theorem staffMiddleware_settles_once req w :
  settlesAtTheEnd (fst (staffMiddleware req w))
  /\ length (List.filter settles (fst (staffMiddleware req w))) = 1.
Proof.
  assert (Hcount : forall actions, settlesAtTheEnd actions ->
                                   length (List.filter settles actions) = 1).
  { intros actions (before & last & -> & Hlast & Hbefore).
    rewrite List.filter_app. cbn [List.filter]. rewrite Hlast.
    assert (Hnone : List.filter settles before = []).
    { clear - Hbefore. induction before as [|a before IH]; [reflexivity|].
      cbn in *. apply andb_true_iff in Hbefore as (Ha & Hrest).
      apply negb_true_iff in Ha. rewrite Ha. now apply IH. }
    now rewrite Hnone. }
  assert (Hshape : settlesAtTheEnd (fst (staffMiddleware req w))).
  { unfold staffMiddleware.
    destruct (authorization req) as [token|];
      [|exists [], (SendStatus 404); repeat split].
    destruct (JS.truthy (Some token));
      [|exists [], (SendStatus 404); repeat split].
    cbn [negb].
    destruct (octokitRequest (credential token) viewerRequest w) as [[[body|]|err] w'];
      cbn [fst]; try (apply (onError_settles []); reflexivity).
    destruct (errors body) as [es|];
      [eexists [_], _; repeat split|].
    destruct (data body) as [| |d]; try (apply onError_settles; reflexivity).
    destruct (viewer d) as [| |v]; try (apply onError_settles; reflexivity).
    destruct (negb (validAdminPermission v)); eexists [_; _], _; repeat split. }
  split; [exact Hshape | exact (Hcount _ Hshape)].
Qed.

(** X14. A body with an [errors] array is answered with status 401
    carrying the errors and the query, also when the array is empty and
    also when the [data] beside it names an administrator. *)
Theorem staffMiddleware_errors_are_unauthorized req w token body es w' :
  authorization req = Some token -> token <> "" ->
  octokitRequest (credential token) viewerRequest w = (Resolved (Some body), w') ->
  errors body = Some es ->
  staffMiddleware req w
  = ([AddLogFields (loginField (data body));
      StatusJson (Some 401%Z) (ErrorsAndQuery es viewerPermissionQuery)], w').
Proof.
  intros Hreq Hne Hask Herrors. apply truthy_Some in Hne.
  unfold staffMiddleware. rewrite Hreq, Hne. cbn [negb].
  rewrite Hask, Herrors. reflexivity.
Qed.

(** X15. When the GitHub call throws, the failure is logged and answered
    with status 401 and the error's [HttpError] if the error's status is
    401, and with a bare 500 for every other status and for an error
    without status. *)
Theorem staffMiddleware_thrown_error req w token err w' :
  authorization req = Some token -> token <> "" ->
  octokitRequest (credential token) viewerRequest w = (Rejected err, w') ->
  (status err = Some 401%Z ->
   staffMiddleware req w = ([LogInfoErr err; StatusSend 401 (HttpError err)], w'))
  /\ (status err <> Some 401%Z ->
      staffMiddleware req w = ([LogInfoErr err; SendStatus 500], w')).
Proof.
  intros Hreq Hne Hask. apply truthy_Some in Hne.
  unfold staffMiddleware. rewrite Hreq, Hne. cbn [negb]. rewrite Hask.
  unfold onError. split.
  - intros ->. reflexivity.
  - intros Hstatus. destruct (status err) as [s|]; [|reflexivity].
    destruct (Z.eqb_spec s 401) as [->|]; [now destruct Hstatus | reflexivity].
Qed.

(** X16. An answer without [errors] whose [data] or whose [viewer] is
    [null] or [undefined], or no body at all, ends in status 500, not in
    401: the property access throws inside the [try]. *)
Theorem staffMiddleware_malformed_answer req w token answer w' :
  authorization req = Some token -> token <> "" ->
  octokitRequest (credential token) viewerRequest w = (Resolved answer, w') ->
  (answer = None
   \/ exists body,
        answer = Some body /\ errors body = None
        /\ (data body = Undefined \/ data body = Null
            \/ exists d, data body = Value d
                         /\ (viewer d = Undefined \/ viewer d = Null))) ->
  exists before,
    staffMiddleware req w = (before ++ [SendStatus 500], w')
    /\ forallb (fun a => negb (settles a)) before = true.
Proof.
  intros Hreq Hne Hask Hbad. apply truthy_Some in Hne.
  unfold staffMiddleware. rewrite Hreq, Hne. cbn [negb]. rewrite Hask.
  destruct Hbad as [-> | (body & -> & Herrors & Hdata)].
  - eexists [_]. split; reflexivity.
  - rewrite Herrors.
    destruct Hdata as [-> | [-> | (d & -> & [-> | ->])]];
      eexists [_; _]; split; reflexivity.
Qed.

Lemma split_without_separator (sep : ascii) (s : string) :
  contains sep s = false -> split sep s = [s].
Proof.
  induction s as [|c s IH]; [reflexivity|]. cbn [contains split].
  intros Hc. apply orb_false_iff in Hc as (Hc & Hs).
  rewrite Hc, (IH Hs). reflexivity.
Qed.

Lemma split_at_first_separator (sep : ascii) (a b : string) :
  contains sep a = false ->
  split sep (a +:+ String sep b) = a :: split sep b.
Proof.
  induction a as [|c a IH]; intros Hc.
  - change ("" +:+ String sep b) with (String sep b).
    cbn [split]. now rewrite Ascii.eqb_refl.
  - cbn [contains] in Hc. apply orb_false_iff in Hc as (Hc & Ha).
    change (String c a +:+ String sep b) with (String c (a +:+ String sep b)).
    cbn [split]. rewrite Hc, (IH Ha). reflexivity.
Qed.

(** X17. The credential handed to GitHub is the second space-separated
    word of the header: for a scheme and a credential without spaces
    joined by one space it is the credential (also when more words
    follow), and for a header without any space there is none, so GitHub
    is asked without authentication. *)
Theorem credential_is_the_second_word (scheme cred : string) :
  contains " " scheme = false ->
  contains " " cred = false ->
  credential (scheme +:+ " " +:+ cred) = Some cred
  /\ (forall more, credential (scheme +:+ " " +:+ cred +:+ " " +:+ more) = Some cred)
  /\ credential scheme = None.
Proof.
  intros Hscheme Hcred. unfold credential. repeat split.
  - change (" " +:+ cred) with (String " " cred).
    rewrite (split_at_first_separator _ _ _ Hscheme), (split_without_separator _ _ Hcred).
    reflexivity.
  - intros more.
    change (" " +:+ cred +:+ " " +:+ more) with (String " " (cred +:+ String " " more)).
    rewrite (split_at_first_separator _ _ _ Hscheme),
      (split_at_first_separator _ _ _ Hcred).
    reflexivity.
  - rewrite (split_without_separator _ _ Hscheme). reflexivity.
Qed.

End StaffMiddleware.

(** ** [GithubCreateBranchPost] *)

Section CreateBranchRoute.
Context {W C : Type} {api : CreateBranch.UserClientAPI W C}.
Import Express CreateBranch.

Implicit Types (locals : Locals) (body : Body) (w : W).

Lemma complete_passes_the_check body :
  complete body ->
  negb (JS.truthy (owner body)) || negb (JS.truthy (repo body))
  || negb (JS.truthy (sourceBranchName body)) || negb (JS.truthy (newBranchName body))
  = false.
Proof. intros (-> & -> & -> & ->). reflexivity. Qed.

Lemma truthy_default (v : option string) :
  JS.truthy v = true -> v = Some (default "" v).
Proof. destruct v; [reflexivity | discriminate]. Qed.

(** X18. Without a GitHub token in [res.locals] (absent or empty) the
    route answers 401 and does nothing else, whatever the body holds. *)
Theorem createBranch_requires_token locals body w :
  JS.truthy (githubToken locals) = false ->
  GithubCreateBranchPost locals body w = ([SendStatus 401], w).
Proof. intros Htoken. unfold GithubCreateBranchPost. now rewrite Htoken. Qed.

(** X19. With a token, a body in which any of [owner], [repo],
    [sourceBranchName], [newBranchName] is missing or empty is answered
    with status 400 and the missing-information message, and GitHub is
    not contacted. *)
Theorem createBranch_requires_every_field locals body w :
  JS.truthy (githubToken locals) = true ->
  JS.truthy (owner body) = false \/ JS.truthy (repo body) = false
  \/ JS.truthy (sourceBranchName body) = false \/ JS.truthy (newBranchName body) = false ->
  GithubCreateBranchPost locals body w
  = ([StatusJson (Some 400%Z)
        (Messages
           (Some ["Missing information, please check if the values for owner, repository, source branch name and the new branch name are valid."]))],
     w).
Proof.
  intros Htoken Hmissing. unfold GithubCreateBranchPost. rewrite Htoken. cbn [negb].
  assert (Hcheck : negb (JS.truthy (owner body)) || negb (JS.truthy (repo body))
                   || negb (JS.truthy (sourceBranchName body))
                   || negb (JS.truthy (newBranchName body)) = true).
  { destruct Hmissing as [-> | [-> | [-> | ->]]]; cbn [negb];
      rewrite ?orb_true_r; reflexivity. }
  rewrite Hcheck. reflexivity.
Qed.

(** X20. With a token and a complete body, when the client is created,
    the source branch is read and the reference is created, the route
    answers 200; the reference it asks GitHub to create is [refs/heads/]
    followed by the new branch name, at the commit the source branch
    points to, in the same owner and repository. *)
Theorem createBranch_success
    locals w token o r source new appConfig client response w1 w2 w3 :
  githubToken locals = Some token -> token <> "" ->
  o <> "" -> r <> "" -> source <> "" -> new <> "" ->
  gitHubAppConfig locals = Some appConfig ->
  createUserClient token (jiraHost locals) (gitHubAppId appConfig) w = (Resolved client, w1) ->
  getReference client o r source w1 = (Resolved response, w2) ->
  createReference client o r
    {| ref_owner := o; ref_repo := r; ref := "refs/heads/" +:+ new;
       ref_sha := sha (object (data response)) |} w2 = (Resolved tt, w3) ->
  GithubCreateBranchPost locals
    {| owner := Some o; repo := Some r; sourceBranchName := Some source;
       newBranchName := Some new |} w
  = ([SendStatus 200], w3).
Proof.
  intros Htoken Ht Ho Hr Hs Hn Hcfg Hclient Href Hcreate.
  apply truthy_Some in Ht, Ho, Hr, Hs, Hn.
  unfold GithubCreateBranchPost. rewrite Htoken, Ht. cbn [negb owner repo
    sourceBranchName newBranchName]. rewrite Ho, Hr, Hs, Hn. cbn [negb orb from_option].
  unfold id.
  unfold createBranch, await. rewrite Hcfg, Hclient, Href, Hcreate. reflexivity.
Qed.

(** The response to a failed attempt. *)
Lemma createBranch_failed locals body w err w' :
  JS.truthy (githubToken locals) = true ->
  complete body ->
  createBranch locals (default "" (githubToken locals)) (default "" (owner body))
    (default "" (repo body)) (default "" (sourceBranchName body))
    (default "" (newBranchName body)) w = (Rejected err, w') ->
  GithubCreateBranchPost locals body w
  = ([LogError err "Error creating branch";
      StatusJson (status err) (Messages (errorMessages (statusOr500 err)))], w').
Proof.
  intros Htoken Hbody Hfail. unfold GithubCreateBranchPost.
  rewrite Htoken. cbn [negb]. rewrite (complete_passes_the_check _ Hbody), Hfail.
  reflexivity.
Qed.


Lemma errorMessages_None (code : Z) :
  errorMessages code = None <-> ~ In code [403; 400; 422; 404; 500]%Z.
Proof.
  unfold errorMessages, errorMessagesTable. cbn [find fst snd].
  destruct (Z.eqb_spec 403 code) as [<-|H1]; [cbn; split; [discriminate | tauto]|].
  destruct (Z.eqb_spec 400 code) as [<-|H2]; [cbn; split; [discriminate | tauto]|].
  destruct (Z.eqb_spec 422 code) as [<-|H3]; [cbn; split; [discriminate | tauto]|].
  destruct (Z.eqb_spec 404 code) as [<-|H4]; [cbn; split; [discriminate | tauto]|].
  destruct (Z.eqb_spec 500 code) as [<-|H5]; [cbn; split; [discriminate | tauto]|].
  cbn. split; [|reflexivity]. intros _ [H|[H|[H|[H|[H|[]]]]]]; congruence.
Qed.



End CreateBranchRoute.

(** ** The further properties in the concrete worlds *)

Section MoreExamples.
Import Scenario ScenarioGraphQL ScenarioMore ScenarioRoutes GitHubAppClient.

Lemma graphql_resolves_only_without_errors_witness :
  Axios.post (GitHubClient.axios gitHubClient) (GitHubClient.graphqlUrl gitHubClient)
    {| query := viewerQuery; variables := None |} emptyConfig (worldReplying noDataReply)
  = (Resolved noDataReply, answered noDataReply)
  /\ (GitHubClient.embeddedErrors noDataReply = None
      \/ GitHubClient.embeddedErrors noDataReply = Some []).
Proof.
  apply (graphql_resolves_only_without_errors gitHubClient viewerQuery emptyConfig None
           (worldReplying noDataReply) noDataReply (answered noDataReply)).
  vm_compute. reflexivity.
Defined.

(** An unreachable network: the failure is the transport's and nothing
    is logged. *)
Lemma graphql_rejection_origin_witness :
  fst (GitHubClient.graphql gitHubClient viewerQuery emptyConfig None blank)
  = Rejected (AxiosError "Network Error" (Some "ECONNREFUSED") None)
  /\ logs (snd (GitHubClient.graphql gitHubClient viewerQuery emptyConfig None blank)) = [].
Proof.
  destruct (graphql_rejection_origin gitHubClient viewerQuery emptyConfig None blank
              (AxiosError "Network Error" (Some "ECONNREFUSED") None)
              (snd (GitHubClient.graphql gitHubClient viewerQuery emptyConfig None blank))
              ltac:(vm_compute; reflexivity))
    as [Hpost | (response & w' & first & rest & Hpost & _)].
  - split; vm_compute; reflexivity.
  - vm_compute in Hpost. discriminate Hpost.
Defined.


Lemma constructor_throws_on_invalid_url_witness :
  exists msg,
    GitHubClient.constructor (runtime := Scenario.runtime outboundProxy)
      brokenConfig bunyan (@blank Body) = (Rejected (TypeError msg), blank).
Proof.
  apply (constructor_throws_on_invalid_url (runtime := Scenario.runtime outboundProxy)
           brokenConfig bunyan (@blank Body)); reflexivity.
Defined.

(** [evilatlassian.com] counts as trusted. *)
Lemma trusted_domain_is_a_bare_suffix_witness :
  GitHubClient.getProxyConfig (runtime := Scenario.runtime outboundProxy) (T:=string)
    lookalikeUrl
  = Resolved GitHubClient.noProxyConfig.
Proof.
  destruct (trusted_domain_is_a_bare_suffix (runtime := Scenario.runtime outboundProxy)
              (T:=string) lookalikeUrl (JS.mkURL "https:" "evilatlassian.com" "") eq_refl)
    as (Htrusted & _).
  apply (Htrusted "evil"). reflexivity.
Defined.

(** A caller-supplied [Authorization] header is replaced, another header
    survives. *)
Lemma authentication_overrides_and_keeps_the_rest_witness :
  exists config',
    run (authenticationInterceptor holder identity) preauthorized appWorld
    = (Resolved config', appWorld)
    /\ headers config' !! "Authorization" = Some "Bearer jwt-one"
    /\ headers config' !! "X-Trace" = Some "7".
Proof.
  destruct (authentication_overrides_and_keeps_the_rest identity holder preauthorized
              appWorld appWorld token1 ltac:(vm_compute; reflexivity))
    as (config' & Hrun & (Hauth & _) & Hrest & _).
  exists config'. split; [exact Hrun|]. split; [exact Hauth|].
  rewrite Hrest by discriminate. vm_compute. reflexivity.
Defined.

Lemma outgoing_headers_are_the_authentication_headers_witness :
  match outgoing (axios appClient)
          (callRequest (GetUserMembershipForOrg "octocat" "acme")) appWorld with
  | Some out =>
      headers out
      = <["Accept" := "application/vnd.github.machine-man-preview+json"]>
          (<["Authorization" := "Bearer jwt-one"]> ∅)
  | None => False
  end.
Proof.
  destruct scenario_keepsHeaders as (Hurl & Htimeout & Hstart).
  destruct (outgoing (axios appClient)
              (callRequest (GetUserMembershipForOrg "octocat" "acme")) appWorld)
    as [out|] eqn:E; [|vm_compute in E; discriminate E].
  destruct (outgoing_headers_are_the_authentication_headers identity bunyan holder
              (GetUserMembershipForOrg "octocat" "acme") appWorld out
              Hurl Htimeout Hstart E)
    as (t & Ht & Hheaders).
  assert (Htok : fst (getAppToken holder identity appWorld) = Resolved token1)
    by (vm_compute; reflexivity).
  rewrite Htok in Ht. injection Ht as <-. exact Hheaders.
Defined.

(** No token for the identity: nothing reaches the network. *)
Lemma token_failure_sends_nothing_witness :
  outgoing (axios appClient) (callRequest GetApp) tokenlessWorld = None
  /\ wire (snd (invoke appClient GetApp tokenlessWorld)) = [].
Proof.
  destruct (token_failure_sends_nothing identity bunyan holder GetApp tokenlessWorld
              tokenlessWorld (GithubClientError "no app token" (Some 401%Z))
              ltac:(vm_compute; reflexivity))
    as (Hout & _ & Hinvoke).
  split; [exact Hout|]. unfold appClient. rewrite Hinvoke. vm_compute. reflexivity.
Defined.

(** [getInstallations] with the network answering: one success metric,
    no failure handling. *)
Lemma success_is_instrumented_only_witness :
  ~ In "handleFailedRequest"
      (traceOf (requestTraced (axios appClient) (callRequest GetInstallations)) appWorld)
  /\ metrics (snd (invoke appClient GetInstallations appWorld))
     = ["app.server.http.request.github"].
Proof.
  destruct (requestPhase (axios appClient) (callRequest GetInstallations) appWorld)
    as [[[out|e] w1] tr] eqn:Hphase; [|vm_compute in Hphase; discriminate Hphase].
  pose proof Hphase as Hvalues. vm_compute in Hvalues.
  injection Hvalues as Hout Hw1 Htr. subst out w1 tr.
  match type of Hphase with
  | _ = (Resolved ?out, ?w1, _) =>
      destruct (transport out w1) as [[r|e] w2] eqn:Hsend;
        [|vm_compute in Hsend; discriminate Hsend]
  end.
  destruct (success_is_instrumented_only identity bunyan holder GetInstallations
              appWorld _ w2 _ _ r Hphase Hsend) as (Hinvoke & Hnot).
  split; [exact Hnot | vm_compute; reflexivity].
Defined.

(** *** The routes *)

Lemma staffMiddleware_without_token_witness :
  ApiRouter.staffMiddleware {| ApiRouter.authorization := Some "" |} 0
  = ([Express.SendStatus 404], 0).
Proof. apply staffMiddleware_without_token. right. reflexivity. Defined.

(** An empty [errors] array beside an administrator's data: 401. *)
Lemma staffMiddleware_errors_are_unauthorized_witness :
  ApiRouter.staffMiddleware (bearer "erroring-token") 0
  = ([Express.AddLogFields (Value "octocat");
      Express.StatusJson (Some 401%Z)
        (Express.ErrorsAndQuery [] ApiRouter.viewerPermissionQuery)], 1).
Proof.
  apply (staffMiddleware_errors_are_unauthorized (bearer "erroring-token") 0
           "Bearer erroring-token"
           {| ApiRouter.data := Value {| ApiRouter.viewer := Value staff |};
              ApiRouter.errors := Some [] |} [] 1);
    [reflexivity | discriminate | reflexivity | reflexivity].
Defined.

Lemma staffMiddleware_thrown_error_witness :
  ApiRouter.staffMiddleware (bearer "expired-token") 0
  = ([Express.LogInfoErr {| status := Some 401%Z; HttpError := None;
                            description := "Bad credentials" |};
      Express.StatusSend 401 None], 1).
Proof.
  destruct (staffMiddleware_thrown_error (bearer "expired-token") 0
              "Bearer expired-token"
              {| status := Some 401%Z; HttpError := None; description := "Bad credentials" |}
              1 eq_refl ltac:(discriminate) eq_refl) as (H401 & _).
  exact (H401 eq_refl).
Defined.

(** [data: null] without [errors]: a 500, after the login field is
    logged as [null]. *)
Lemma staffMiddleware_malformed_answer_witness :
  ApiRouter.staffMiddleware (bearer "unknown") 0
  = ([Express.AddLogFields Null;
      Express.LogInfoErr (typeError "cannot read 'viewer' of undefined");
      Express.SendStatus 500], 1).
Proof.
  destruct (staffMiddleware_malformed_answer (bearer "unknown") 0 "Bearer unknown"
              (Some {| ApiRouter.data := Null; ApiRouter.errors := None |}) 1
              eq_refl ltac:(discriminate) eq_refl
              ltac:(right; eexists; split; [reflexivity|]; split; [reflexivity|];
                    right; left; reflexivity))
    as (before & Hrun & _).
  rewrite Hrun. vm_compute in Hrun.
  injection Hrun as Hactions.
  apply (f_equal (fun l => removelast l)) in Hactions.
  rewrite removelast_last in Hactions. cbn in Hactions. subst before. reflexivity.
Defined.

Lemma credential_is_the_second_word_witness :
  ApiRouter.credential "Bearer staff-token" = Some "staff-token"
  /\ ApiRouter.credential "staff-token" = None.
Proof.
  destruct (credential_is_the_second_word "Bearer" "staff-token" eq_refl eq_refl)
    as (Hcred & _).
  destruct (credential_is_the_second_word "staff-token" "x" eq_refl eq_refl)
    as (_ & _ & Hnone).
  split; [exact Hcred | exact Hnone].
Defined.

Lemma createBranch_requires_token_witness :
  CreateBranch.GithubCreateBranchPost
    {| CreateBranch.githubToken := None; CreateBranch.jiraHost := None;
       CreateBranch.gitHubAppConfig := None |}
    (branchRequest "main" "feature") repository
  = ([Express.SendStatus 401], repository).
Proof. apply createBranch_requires_token. reflexivity. Defined.

(** An empty new branch name. *)
Lemma createBranch_requires_every_field_witness :
  fst (CreateBranch.GithubCreateBranchPost locals (branchRequest "main" "") repository)
  = [Express.StatusJson (Some 400%Z) (Express.Messages (CreateBranch.errorMessages 400))]
  /\ snd (CreateBranch.GithubCreateBranchPost locals (branchRequest "main" "") repository)
     = repository.
Proof.
  rewrite (createBranch_requires_every_field locals (branchRequest "main" "") repository
             eq_refl ltac:(right; right; right; reflexivity)).
  split; reflexivity.
Defined.

(** [feature] is created where [main] points. *)
Lemma createBranch_success_witness :
  CreateBranch.GithubCreateBranchPost locals (branchRequest "main" "feature") repository
  = ([Express.SendStatus 200],
     [("refs/heads/feature", "4f0c1e9"); ("refs/heads/main", "4f0c1e9")]).
Proof.
  apply (createBranch_success locals repository "user-token" "acme" "widgets" "main"
           "feature" {| CreateBranch.gitHubAppId := None |} "user-token"
           {| CreateBranch.data :=
                {| CreateBranch.object := {| CreateBranch.sha := "4f0c1e9" |} |} |}
           repository repository);
    try discriminate; reflexivity.
Defined.



End MoreExamples.
